(** * EssenTracker: a shallow embedding of [app.py] and [models.py]

    The Flask views are embedded as functions in a state-and-exception
    monad over an explicit database value.  Conventions:

    - A Python [float] is an exact rational or one of [inf], [-inf], [nan]
      ([pyfloat]); binary64 rounding and overflow are not represented.
    - Strings are byte strings; the [str] methods are embedded for ASCII.
    - A table is the list of its rows in rowid order.  [db.session.add] /
      attribute assignment followed by [db.session.commit()] is one step
      on the database value, recorded in a journal of writes; an exception
      raised before the commit leaves the database as of the last commit.
    - [date] values are proleptic ordinals ([date.toordinal()]), so that
      [d - timedelta(days=i)] is [d - i].
    - Templates, flashed messages and the bytes of uploaded files are not
      represented: a rendered page is the context handed to the template,
      the upload folder is the set of its file names. *)

From stdpp Require Import base numbers list strings gmap sorting.
From Stdlib Require Import Ascii QArith Qcanon.

Local Open Scope string_scope.
Local Open Scope list_scope.
Local Open Scope Z_scope.

(** ** Python floats *)

Inductive pyfloat : Type :=
  | Fin (q : Qc)
  | PosInf
  | NegInf
  | NaN.

#[global] Instance pyfloat_eq_dec : EqDecision pyfloat.
Proof. solve_decision. Defined.

Definition fzero : pyfloat := Fin 0%Qc.

Definition of_int (n : Z) : pyfloat := Fin (Q2Qc (inject_Z n)).

(** [a + b] on floats. *)
Definition fadd (a b : pyfloat) : pyfloat :=
  match a, b with
  | NaN, _ | _, NaN => NaN
  | PosInf, NegInf | NegInf, PosInf => NaN
  | PosInf, _ | _, PosInf => PosInf
  | NegInf, _ | _, NegInf => NegInf
  | Fin x, Fin y => Fin (x + y)%Qc
  end.

Definition fneg (a : pyfloat) : pyfloat :=
  match a with
  | Fin x => Fin (- x)%Qc
  | PosInf => NegInf
  | NegInf => PosInf
  | NaN => NaN
  end.

(** The builtin [sum(iterable)]: left to right, starting from [0]. *)
Definition py_sum (l : list pyfloat) : pyfloat := fold_left fadd l fzero.

(** ** Python [str] methods used by the views *)

Definition chars (s : string) : list ascii := String.list_ascii_of_string s.
Definition str (l : list ascii) : string := String.string_of_list_ascii l.

Definition code (c : ascii) : Z := Z.of_nat (nat_of_ascii c).

(** [c.isspace()] on the ASCII range: TAB..CR, FS..US and the blank. *)
Definition is_space (c : ascii) : bool :=
  ((9 <=? code c) && (code c <=? 13)) || ((28 <=? code c) && (code c <=? 32)).

Definition is_digit (c : ascii) : bool := (48 <=? code c) && (code c <=? 57).

Definition lower_char (c : ascii) : ascii :=
  if (65 <=? code c) && (code c <=? 90)
  then ascii_of_nat (nat_of_ascii c + 32) else c.

(** [s.lower()] *)
Definition lower (s : string) : string := str (map lower_char (chars s)).

Fixpoint lstrip (l : list ascii) : list ascii :=
  match l with
  | c :: r => if is_space c then lstrip r else l
  | [] => []
  end.

(** [s.strip()] *)
Definition strip_chars (l : list ascii) : list ascii :=
  rev (lstrip (rev (lstrip l))).
Definition strip (s : string) : string := str (strip_chars (chars s)).

(** [s.startswith(p)] *)
Fixpoint starts_with (p l : list ascii) : bool :=
  match p, l with
  | [], _ => true
  | a :: p', b :: l' => if decide (a = b) then starts_with p' l' else false
  | _ :: _, [] => false
  end.

(** [s.split(sep, 1)]: the text before the first occurrence of [sep] and
    the text after it, or [None] when [sep] does not occur (Python then
    returns the one-element list [[s]]). *)
Fixpoint split_first (sep l : list ascii) : option (list ascii * list ascii) :=
  if starts_with sep l then Some ([], drop (length sep) l)
  else match l with
       | [] => None
       | c :: r =>
           match split_first sep r with
           | Some (a, b) => Some (c :: a, b)
           | None => None
           end
       end.

(** [s.rsplit(sep, 1)]: the same around the last occurrence of [sep]. *)
Definition rsplit_last (sep l : list ascii) : option (list ascii * list ascii) :=
  match split_first (rev sep) (rev l) with
  | Some (a, b) => Some (rev b, rev a)
  | None => None
  end.

(** [c in s] for a one-character [c]. *)
Definition contains_char (c : ascii) (s : string) : bool :=
  bool_decide (c ∈ chars s).

(** ** The builtin [float(x)] *)

(** Exceptions that escape a view. *)
Inductive exn : Type :=
  | ValueError
  | AttributeError
  | ColumnTypeMismatch.

Fixpoint span (p : ascii -> bool) (l : list ascii) : list ascii * list ascii :=
  match l with
  | c :: r =>
      if p c then let '(a, b) := span p r in (c :: a, b) else ([], l)
  | [] => ([], [])
  end.

Definition digits_val (ds : list ascii) : Z :=
  fold_left (fun acc c => 10 * acc + (code c - 48)) ds 0.

Definition pow10 (e : Z) : Qc :=
  if 0 <=? e then Q2Qc (inject_Z (10 ^ e))
  else (/ Q2Qc (inject_Z (10 ^ (- e))))%Qc.

(** Underscores in a numeric literal: allowed only between two digits;
    they are removed before the literal is read. *)
Fixpoint drop_underscores (prev : option ascii) (l : list ascii)
  : option (list ascii) :=
  match l with
  | [] => if decide (prev = Some "_"%char) then None else Some []
  | c :: r =>
      if decide (c = "_"%char) then
        match prev with
        | Some p => if is_digit p then drop_underscores (Some c) r else None
        | None => None
        end
      else if bool_decide (prev = Some "_"%char) && negb (is_digit c) then None
      else option_map (cons c) (drop_underscores (Some c) r)
  end.

Definition take_sign (l : list ascii) : bool * list ascii :=
  match l with
  | "-"%char :: r => (true, r)
  | "+"%char :: r => (false, r)
  | _ => (false, l)
  end.

(** digits [. digits] [(e|E) [sign] digits], with a digit in the mantissa *)
Definition parse_decimal (l : list ascii) : option Qc :=
  let '(ip, r1) := span is_digit l in
  let '(fp, r2) := match r1 with
                   | "."%char :: r => span is_digit r
                   | _ => ([], r1)
                   end in
  let mant := digits_val (ip ++ fp) in
  let scale := - Z.of_nat (length fp) in
  match ip ++ fp with
  | [] => None
  | _ :: _ =>
      match r2 with
      | [] => Some (Q2Qc (inject_Z mant) * pow10 scale)%Qc
      | e :: r3 =>
          if bool_decide (e = "e"%char) || bool_decide (e = "E"%char) then
            let '(eneg, r4) := take_sign r3 in
            let '(ed, r5) := span is_digit r4 in
            match ed, r5 with
            | _ :: _, [] =>
                let ev := if eneg then - digits_val ed else digits_val ed in
                Some (Q2Qc (inject_Z mant) * pow10 (ev + scale))%Qc
            | _, _ => None
            end
          else None
      end
  end.

(** [float(s)] for a string: surrounding whitespace is ignored, then a
    signed decimal literal, [inf], [infinity] or [nan] (any case) must span
    the whole text; anything else raises [ValueError]. *)
Definition float_of_str (s : string) : option pyfloat :=
  match drop_underscores None (strip_chars (chars s)) with
  | None => None
  | Some l =>
      let '(neg, body) := take_sign l in
      let sgn (x : pyfloat) := if neg then fneg x else x in
      let low := str (map lower_char body) in
      if bool_decide (low = "inf") || bool_decide (low = "infinity")
      then Some (sgn PosInf)
      else if decide (low = "nan") then Some NaN
      else option_map (fun q => sgn (Fin q)) (parse_decimal body)
  end.

(** ** Values of the request layer *)

(** What [request.form.get(key, default)] evaluates to: the submitted text,
    or the integer default of the call. *)
Inductive pyval : Type :=
  | VStr (s : string)
  | VInt (n : Z).

(** Decoded JSON, as [json.loads] returns it; an object is the list of the
    entries of the resulting dict, each key once. *)
#[warnings="-register-all"] Inductive json : Type :=
  | JNull
  | JBool (b : bool)
  | JNum (x : pyfloat)
  | JStr (s : string)
  | JArr (l : list json)
  | JObj (kv : list (string * json)).

(** Truth value of an object in [if x:] and [x or y]. *)
Definition pyval_truthy (v : pyval) : bool :=
  match v with
  | VStr s => negb (bool_decide (s = ""))
  | VInt n => negb (n =? 0)
  end.

Definition json_truthy (v : json) : bool :=
  match v with
  | JNull => false
  | JBool b => b
  | JNum x => negb (bool_decide (x = fzero))
  | JStr s => negb (bool_decide (s = ""))
  | JArr l => match l with [] => false | _ :: _ => true end
  | JObj kv => match kv with [] => false | _ :: _ => true end
  end.

(** [x or d] *)
Definition py_or (x d : pyval) : pyval := if pyval_truthy x then x else d.

(** First binding of a key: [MultiDict.get] and [dict.get]. *)
Fixpoint assoc {A : Type} (k : string) (l : list (string * A)) : option A :=
  match l with
  | [] => None
  | (k', v) :: r => if decide (k' = k) then Some v else assoc k r
  end.

Definition form_get (form : list (string * string)) (k : string) (d : pyval)
  : pyval :=
  match assoc k form with
  | Some s => VStr s
  | None => d
  end.

Definition form_get_str (form : list (string * string)) (k d : string)
  : string :=
  match assoc k form with
  | Some s => s
  | None => d
  end.

Definition dict_get (kv : list (string * json)) (k : string) (d : json) : json :=
  match assoc k kv with
  | Some v => v
  | None => d
  end.

(** Outcome of evaluating Python code: a value, an exception, or
    [abort(code)]. *)
Inductive outcome (A : Type) : Type :=
  | Ok (a : A)
  | Raise (e : exn)
  | Abort (code : Z).
Arguments Ok {A} a.
Arguments Raise {A} e.
Arguments Abort {A} code.

(** [float(v)] *)
Definition py_float (v : pyval) : outcome pyfloat :=
  match v with
  | VInt n => Ok (of_int n)
  | VStr s =>
      match float_of_str s with
      | Some x => Ok x
      | None => Raise ValueError
      end
  end.

(** ** models.py *)

Module User.
Record t : Type := mk {
  id : Z;
  username : string;
  email : string;
  password_hash : string;
  created_at : Z;
  share_token : option string }.
End User.

Module Meal.
Record t : Type := mk {
  id : Z;
  user_id : Z;
  name : string;
  description : string;
  image_path : option string;
  meal_type : string;
  date : Z;
  created_at : Z;
  calories : pyfloat;
  protein : pyfloat;
  carbs : pyfloat;
  fat : pyfloat;
  fiber : pyfloat;
  sugar : pyfloat;
  sodium : pyfloat;
  saturated_fat : pyfloat;
  cholesterol : pyfloat;
  potassium : pyfloat;
  vitamin_a : pyfloat;
  vitamin_c : pyfloat;
  calcium : pyfloat;
  iron : pyfloat }.

(** [db.Column(db.Float, default=0)]: the value of a nutrient column that
    [Meal(...)] leaves unset. *)
Definition unset : pyfloat := of_int 0.
End Meal.

Module Goal.
Record t : Type := mk {
  id : Z;
  user_id : Z;
  title : string;
  description : string;
  target_type : string;
  target_value : pyfloat;
  current_value : pyfloat;
  unit : string;
  start_date : Z;
  end_date : option Z;
  completed : bool;
  created_at : Z }.

Definition set_completed (b : bool) (g : t) : t :=
  mk (id g) (user_id g) (title g) (description g) (target_type g)
     (target_value g) (current_value g) (unit g) (start_date g) (end_date g)
     b (created_at g).
End Goal.

Module DailyLimit.
Record t : Type := mk {
  id : Z;
  user_id : Z;
  calories : pyfloat;
  protein : pyfloat;
  carbs : pyfloat;
  fat : pyfloat;
  fiber : pyfloat;
  sugar : pyfloat;
  sodium : pyfloat;
  saturated_fat : pyfloat;
  cholesterol : pyfloat;
  potassium : pyfloat }.

(** The ten ceilings of a row, in column order. *)
Definition ceilings (l : t) : list pyfloat :=
  [calories l; protein l; carbs l; fat l; fiber l; sugar l; sodium l;
   saturated_fat l; cholesterol l; potassium l].

(** [DailyLimit(user_id=uid)] once flushed: every ceiling takes its column
    default. *)
Definition fresh (pk uid : Z) : t :=
  mk pk uid (of_int 2000) (of_int 50) (of_int 300) (of_int 65) (of_int 25)
     (of_int 50) (of_int 2300) (of_int 20) (of_int 300) (of_int 3500).
End DailyLimit.

#[global] Instance DailyLimit_eq_dec : EqDecision DailyLimit.t.
Proof. solve_decision. Defined.

(** ** The database, the upload folder and the monad of the views *)

Inductive table : Type := TUser | TMeal | TGoal | TDailyLimit.

(** One entry per row written by a commit. *)
Inductive write : Type :=
  | Insert (t : table) (pk : Z)
  | Update (t : table) (pk : Z)
  | Delete (t : table) (pk : Z).

Record state : Type := mkState {
  user_table : list User.t;
  meal_table : list Meal.t;
  goal_table : list Goal.t;
  daily_limit_table : list DailyLimit.t;
  journal : list write;
  uploads : gset string }.

Definition with_meals (f : list Meal.t -> list Meal.t) (w : write) (s : state)
  : state :=
  mkState (user_table s) (f (meal_table s)) (goal_table s)
          (daily_limit_table s) (journal s ++ [w]) (uploads s).

Definition with_goals (f : list Goal.t -> list Goal.t) (w : list write)
  (s : state) : state :=
  mkState (user_table s) (meal_table s) (f (goal_table s))
          (daily_limit_table s) (journal s ++ w) (uploads s).

Definition with_limits (f : list DailyLimit.t -> list DailyLimit.t)
  (w : list write) (s : state) : state :=
  mkState (user_table s) (meal_table s) (goal_table s)
          (f (daily_limit_table s)) (journal s ++ w) (uploads s).

Definition with_uploads (f : gset string -> gset string) (s : state) : state :=
  mkState (user_table s) (meal_table s) (goal_table s)
          (daily_limit_table s) (journal s) (f (uploads s)).

(** Integer primary key given to an inserted row: one more than the largest
    key of the table. *)
Definition next_id (ids : list Z) : Z := 1 + foldr Z.max 0 ids.

Definition M (A : Type) : Type := state -> outcome A * state.

Definition ret {A : Type} (a : A) : M A := fun s => (Ok a, s).

Definition bind {A B : Type} (m : M A) (k : A -> M B) : M B :=
  fun s =>
    match m s with
    | (Ok a, s') => k a s'
    | (Raise e, s') => (Raise e, s')
    | (Abort c, s') => (Abort c, s')
    end.

Definition lift {A : Type} (o : outcome A) : M A := fun s => (o, s).

Definition abort {A : Type} (code : Z) : M A := fun s => (Abort code, s).

Definition get_state : M state := fun s => (Ok s, s).

Definition modify (f : state -> state) : M () := fun s => (Ok (), f s).

Notation "'let!' x ':=' m 'in' k" := (bind m (fun x => k))
  (at level 10, x name, m at level 100, k at level 200).

(** Status line of the HTTP answer: an uncaught exception is a 500. *)
Definition status {A : Type} (ok : A -> Z) (o : outcome A) : Z :=
  match o with
  | Ok a => ok a
  | Raise _ => 500
  | Abort c => c
  end.

(** ** Requests, the environment of one request, and responses *)

Inductive http_method : Type := GET | POST.

(** An uploaded file; its bytes play no role in the views. *)
Record FileStorage : Type := mkFile { filename : string }.

(** A request: [request.method], [request.form], [request.files],
    [request.headers] (names in their canonical spelling) and the user id
    kept in the session, if any. *)
Record request : Type := mkRequest {
  method : http_method;
  form : list (string * string);
  files : list (string * FileStorage);
  headers : list (string * string);
  session_user_id : option Z }.

(** What one request reads from outside the database: the server's day and
    clock, the random file prefix, and the text the vision API answered
    with ([None] when anything before reading that text raised). *)
Record env : Type := mkEnv {
  today : Z;
  utcnow : Z;
  uuid4_hex : string;
  api_reply : option string }.

(** A Python dict with string keys, in insertion order. *)
Definition dict (A : Type) : Type := list (string * A).

Record week_entry : Type := mkWeekEntry {
  week_date : Z;
  week_sums : dict pyfloat }.

Record day_entry : Type := mkDayEntry {
  day_date : Z;
  day_name : string;
  day_is_today : bool;
  day_meals : list Meal.t;
  day_totals : dict pyfloat }.

Record page : Type := mkPage {
  page_meals : list Meal.t;
  page_limits : DailyLimit.t;
  page_totals : dict pyfloat;
  page_week_data : list week_entry;
  page_goals : list Goal.t }.

Inductive response : Type :=
  | Redirect (endpoint : string)
  | RenderTemplate (template : string)
  | RenderDashboard (ctx : page)
  | RenderShared (user : User.t) (ctx : page)
  | RenderWeekly (days : list day_entry) (limits : DailyLimit.t)
  | RenderSettings (limits : DailyLimit.t)
  | Jsonify (meal_id : Z) (name : string).

Definition response_status (r : response) : Z :=
  match r with
  | Redirect _ => 302
  | _ => 200
  end.

(** ** Queries *)

(** [Meal.query.filter_by(user_id=uid, date=d).all()] *)
Definition meals_filter_by (uid d : Z) (s : state) : list Meal.t :=
  filter (fun m => Meal.user_id m = uid ∧ Meal.date m = d) (meal_table s).

Fixpoint insert_by_created_at (m : Meal.t) (l : list Meal.t) : list Meal.t :=
  match l with
  | [] => [m]
  | x :: r =>
      if Meal.created_at m <=? Meal.created_at x then m :: l
      else x :: insert_by_created_at m r
  end.

(** [.order_by(Meal.created_at)]: ascending, rows with equal keys in table
    order. *)
Definition order_by_created_at (l : list Meal.t) : list Meal.t :=
  foldr insert_by_created_at [] l.

(** [Goal.query.filter_by(user_id=uid, completed=False).all()] *)
Definition open_goals (uid : Z) (s : state) : list Goal.t :=
  filter (fun g => Goal.user_id g = uid ∧ Goal.completed g = false)
         (goal_table s).

(** [Model.query.get_or_404(pk)] on the three tables the views use it on. *)
Definition get_or_404 {A : Type} (pk_of : A -> Z) (rows : list A) (pk : Z)
  : M A :=
  match head (filter (fun r => pk_of r = pk) rows) with
  | Some r => ret r
  | None => abort 404
  end.

(** [load_user]: [db.session.get(User, int(user_id))] *)
Definition load_user (s : state) (user_id : Z) : option User.t :=
  head (filter (fun u => User.id u = user_id) (user_table s)).

(** [current_user]: the row of the session's user, if the session has one. *)
Definition current_user (s : state) (req : request) : option User.t :=
  match session_user_id req with
  | Some uid => load_user s uid
  | None => None
  end.

(** [@login_required]: an anonymous request is sent to the login view. *)
Definition login_required (view : User.t -> M response) (req : request)
  : M response :=
  fun s =>
    match current_user s req with
    | Some u => view u s
    | None => (Ok (Redirect "login"), s)
    end.

(** [User.get_limits] *)
Definition get_limits (self : User.t) : M DailyLimit.t :=
  let! s := get_state in
  match head (filter (fun l => DailyLimit.user_id l = User.id self)
                     (daily_limit_table s)) with
  | Some limits => ret limits
  | None =>
      let limits :=
        DailyLimit.fresh (next_id (map DailyLimit.id (daily_limit_table s)))
                         (User.id self) in
      let! _ := modify (with_limits (fun t => t ++ [limits])
                          [Insert TDailyLimit (DailyLimit.id limits)]) in
      ret limits
  end.

(** ** app.py: helpers *)

Definition ALLOWED_EXTENSIONS : list string := ["png"; "jpg"; "jpeg"; "webp"].

(** [allowed_file] *)
Definition allowed_file (filename : string) : bool :=
  contains_char "."%char filename &&
  match rsplit_last ["."%char] (chars filename) with
  | Some (_, ext) => bool_decide (lower (str ext) ∈ ALLOWED_EXTENSIONS)
  | None => false
  end.

(** [bool(image)] for an uploaded file: whether it carries a file name. *)
Definition file_truthy (f : FileStorage) : bool :=
  negb (bool_decide (filename f = "")).

Definition fence : list ascii := chars "```".
Definition newline : ascii := ascii_of_nat 10.

(** Nutrient cell of a row built from the classifier's object.  The Float
    columns of this embedding hold numbers; what the database layer makes
    of another JSON value is outside the repository, and such a run ends
    in [ColumnTypeMismatch] here. *)
Definition float_column (v : json) : outcome pyfloat :=
  match v with
  | JNum x => Ok x
  | _ => Raise ColumnTypeMismatch
  end.

Definition text_column (v : json) : outcome string :=
  match v with
  | JStr s => Ok s
  | _ => Raise ColumnTypeMismatch
  end.

(** [float(request.form.get(key, d) or d)] *)
Definition form_float (req : request) (key : string) (d : Z) : M pyfloat :=
  lift (py_float (py_or (form_get (form req) key (VInt d)) (VInt d))).

(** [db.session.add(meal); db.session.commit()]: the row gets its primary
    key and its [created_at] default. *)
Definition add_commit_meal (e : env) (meal : Z -> Z -> Meal.t) : M Meal.t :=
  let! s := get_state in
  let row := meal (next_id (map Meal.id (meal_table s))) (utcnow e) in
  let! _ := modify (with_meals (fun t => t ++ [row])
                      (Insert TMeal (Meal.id row))) in
  ret row.

Definition add_commit_goal (e : env) (goal : Z -> Z -> Goal.t) : M Goal.t :=
  let! s := get_state in
  let row := goal (next_id (map Goal.id (goal_table s))) (utcnow e) in
  let! _ := modify (with_goals (fun t => t ++ [row])
                      [Insert TGoal (Goal.id row)]) in
  ret row.

Section Views.

(** Library functions the views call and whose results they only pass on:
    [werkzeug.utils.secure_filename], [json.loads] ([None] when it raises)
    and [datetime.strptime(_, '%Y-%m-%d').date()] ([None] when it
    raises). *)
Variable secure_filename : string -> string.
Variable json_loads : string -> option json.
Variable strptime_date : string -> option Z.

(** [analyze_meal_image], from the API's answer on: every exception is
    caught and turned into [None]. *)
Definition analyze_meal_image (reply : option string) : option json :=
  match reply with
  | None => None
  | Some text =>
      let response_text := strip_chars (chars text) in
      if starts_with fence response_text then
        match split_first [newline] response_text with
        | None => None
        | Some (_, rest) =>
            let body := match rsplit_last fence rest with
                        | Some (before, _) => before
                        | None => rest
                        end in
            json_loads (str (strip_chars body))
        end
      else json_loads (str response_text)
  end.

(** ** app.py: views *)

Definition sum_of (f : Meal.t -> pyfloat) (ms : list Meal.t) : pyfloat :=
  py_sum (map f ms).

(** [dashboard] *)
Definition dashboard_view (e : env) (current_user : User.t) : M response :=
  let! s := get_state in
  let today_meals :=
    order_by_created_at (meals_filter_by (User.id current_user) (today e) s) in
  let! limits := get_limits current_user in
  let totals :=
    [("calories", sum_of Meal.calories today_meals);
     ("protein", sum_of Meal.protein today_meals);
     ("carbs", sum_of Meal.carbs today_meals);
     ("fat", sum_of Meal.fat today_meals);
     ("fiber", sum_of Meal.fiber today_meals);
     ("sugar", sum_of Meal.sugar today_meals);
     ("sodium", sum_of Meal.sodium today_meals)] in
  let! s := get_state in
  let week_data :=
    map (fun i =>
           let d := today e - i in
           let day_meals := meals_filter_by (User.id current_user) d s in
           mkWeekEntry d
             [("calories", sum_of Meal.calories day_meals);
              ("protein", sum_of Meal.protein day_meals);
              ("carbs", sum_of Meal.carbs day_meals);
              ("fat", sum_of Meal.fat day_meals)])
        [6; 5; 4; 3; 2; 1; 0] in
  let goals := open_goals (User.id current_user) s in
  ret (RenderDashboard (mkPage today_meals limits totals week_data goals)).

Definition dashboard (e : env) : request -> M response :=
  login_required (dashboard_view e).

(** [date.weekday()]: Monday is 0; ordinal 1 is a Monday. *)
Definition weekday (d : Z) : Z := (d - 1) `mod` 7.

Definition day_names : list string := ["Mo"; "Di"; "Mi"; "Do"; "Fr"; "Sa"; "So"].

(** [weekly_plan] *)
Definition weekly_plan_view (e : env) (current_user : User.t) : M response :=
  let start_of_week := today e - weekday (today e) in
  let! limits := get_limits current_user in
  let! s := get_state in
  let days :=
    map (fun i =>
           let d := start_of_week + i in
           let day_meals :=
             order_by_created_at (meals_filter_by (User.id current_user) d s) in
           let totals :=
             [("calories", sum_of Meal.calories day_meals);
              ("protein", sum_of Meal.protein day_meals);
              ("carbs", sum_of Meal.carbs day_meals);
              ("fat", sum_of Meal.fat day_meals);
              ("fiber", sum_of Meal.fiber day_meals)] in
           mkDayEntry d (nth (Z.to_nat (weekday d)) day_names "")
                      (bool_decide (d = today e)) day_meals totals)
        [0; 1; 2; 3; 4; 5; 6] in
  ret (RenderWeekly days limits).

Definition weekly_plan (e : env) : request -> M response :=
  login_required (weekly_plan_view e).

(** [shared_profile] *)
Definition shared_profile (e : env) (token : string) : M response :=
  let! s := get_state in
  match head (filter (fun u => User.share_token u = Some token)
                     (user_table s)) with
  | None => abort 404
  | Some user =>
      let today_meals := meals_filter_by (User.id user) (today e) s in
      let! limits := get_limits user in
      let totals :=
        [("calories", sum_of Meal.calories today_meals);
         ("protein", sum_of Meal.protein today_meals);
         ("carbs", sum_of Meal.carbs today_meals);
         ("fat", sum_of Meal.fat today_meals);
         ("fiber", sum_of Meal.fiber today_meals)] in
      let! s := get_state in
      let week_data :=
        map (fun i =>
               let d := today e - i in
               let day_meals := meals_filter_by (User.id user) d s in
               mkWeekEntry d [("calories", sum_of Meal.calories day_meals)])
            [6; 5; 4; 3; 2; 1; 0] in
      let goals := open_goals (User.id user) s in
      ret (RenderShared user
             (mkPage today_meals limits totals week_data goals))
  end.

(** The [Meal(...)] of the classifier branch of [add_meal]. *)
Definition meal_of_analysis (e : env) (req : request) (current_user : User.t)
  (filename : option string) (analysis : dict json)
  : M (Z -> Z -> Meal.t) :=
  let num k := lift (float_column (dict_get analysis k (JNum (of_int 0)))) in
  let! name :=
    lift (text_column (dict_get analysis "name" (JStr "Unbekannte Mahlzeit"))) in
  let! description :=
    lift (text_column (dict_get analysis "description" (JStr ""))) in
  let meal_type := form_get_str (form req) "meal_type" "snack" in
  let! calories := num "calories" in
  let! protein := num "protein" in
  let! carbs := num "carbs" in
  let! fat := num "fat" in
  let! fiber := num "fiber" in
  let! sugar := num "sugar" in
  let! sodium := num "sodium" in
  let! saturated_fat := num "saturated_fat" in
  let! cholesterol := num "cholesterol" in
  let! potassium := num "potassium" in
  let! vitamin_a := num "vitamin_a" in
  let! vitamin_c := num "vitamin_c" in
  let! calcium := num "calcium" in
  let! iron := num "iron" in
  ret (fun pk created_at =>
         Meal.mk pk (User.id current_user) name description filename meal_type
                 (today e) created_at
                 calories protein carbs fat fiber sugar sodium
                 saturated_fat cholesterol potassium
                 vitamin_a vitamin_c calcium iron).

(** The [Meal(...)] of the manual branch: seven nutrients from the form, the
    other seven left to their column default [0]. *)
Definition meal_of_form (e : env) (req : request) (current_user : User.t)
  (filename : option string) : M (Z -> Z -> Meal.t) :=
  let name := form_get_str (form req) "name" "Mahlzeit" in
  let description := form_get_str (form req) "description" "" in
  let meal_type := form_get_str (form req) "meal_type" "snack" in
  let! calories := form_float req "calories" 0 in
  let! protein := form_float req "protein" 0 in
  let! carbs := form_float req "carbs" 0 in
  let! fat := form_float req "fat" 0 in
  let! fiber := form_float req "fiber" 0 in
  let! sugar := form_float req "sugar" 0 in
  let! sodium := form_float req "sodium" 0 in
  ret (fun pk created_at =>
         Meal.mk pk (User.id current_user) name description filename meal_type
                 (today e) created_at
                 calories protein carbs fat fiber sugar sodium
                 Meal.unset Meal.unset Meal.unset
                 Meal.unset Meal.unset Meal.unset Meal.unset).

(** [add_meal] *)
Definition add_meal_view (e : env) (req : request) (current_user : User.t)
  : M response :=
  match method req with
  | POST =>
      let image := assoc "image" (files req) in
      let! upload :=
        match image with
        | Some img =>
            if file_truthy img && allowed_file (filename img) then
              let filename :=
                uuid4_hex e +:+ "_" +:+ secure_filename (filename img) in
              let! _ := modify (with_uploads (fun d => {[filename]} ∪ d)) in
              ret (Some filename, analyze_meal_image (api_reply e))
            else ret (None, None)
        | None => ret (None, None)
        end in
      let filename := fst upload in
      let analysis := snd upload in
      let! meal :=
        match analysis with
        | Some a =>
            if json_truthy a then
              match a with
              | JObj kv => meal_of_analysis e req current_user filename kv
              | _ => lift (Raise AttributeError)
              end
            else meal_of_form e req current_user filename
        | None => meal_of_form e req current_user filename
        end in
      let! meal := add_commit_meal e meal in
      if bool_decide (assoc "Accept" (headers req) = Some "application/json")
      then ret (Jsonify (Meal.id meal) (Meal.name meal))
      else ret (Redirect "dashboard")
  | GET => ret (RenderTemplate "add_meal.html")
  end.

Definition add_meal (e : env) (req : request) : M response :=
  login_required (add_meal_view e req) req.

(** [delete_meal] *)
Definition delete_meal_view (meal_id : Z) (current_user : User.t) : M response :=
  let! s := get_state in
  let! meal := get_or_404 Meal.id (meal_table s) meal_id in
  if bool_decide (Meal.user_id meal ≠ User.id current_user) then abort 403
  else
    let! _ :=
      match Meal.image_path meal with
      | Some path =>
          if negb (bool_decide (path = ""))
          then modify (with_uploads (fun d => d ∖ {[path]}))
          else ret ()
      | None => ret ()
      end in
    let! _ := modify (with_meals (filter (fun m => Meal.id m ≠ Meal.id meal))
                        (Delete TMeal (Meal.id meal))) in
    ret (Redirect "dashboard").

Definition delete_meal (meal_id : Z) : request -> M response :=
  login_required (delete_meal_view meal_id).

(** [add_goal] *)
Definition add_goal_view (e : env) (req : request) (current_user : User.t)
  : M response :=
  let title := form_get_str (form req) "title" "" in
  let description := form_get_str (form req) "description" "" in
  let target_type := form_get_str (form req) "target_type" "calories" in
  let! target_value := form_float req "target_value" 0 in
  let unit := form_get_str (form req) "unit" "" in
  let! end_date :=
    match assoc "end_date" (form req) with
    | Some text =>
        if negb (bool_decide (text = "")) then
          match strptime_date text with
          | Some d => ret (Some d)
          | None => lift (Raise ValueError)
          end
        else ret None
    | None => ret None
    end in
  let! _ :=
    add_commit_goal e
      (fun pk created_at =>
         Goal.mk pk (User.id current_user) title description target_type
                 target_value (of_int 0) unit (today e) end_date false
                 created_at) in
  ret (Redirect "goals").

Definition add_goal (e : env) (req : request) : M response :=
  login_required (add_goal_view e req) req.

(** [complete_goal]: the commit writes the row only if the flag changed. *)
Definition complete_goal_view (goal_id : Z) (current_user : User.t)
  : M response :=
  let! s := get_state in
  let! goal := get_or_404 Goal.id (goal_table s) goal_id in
  if bool_decide (Goal.user_id goal ≠ User.id current_user) then abort 403
  else
    let! _ :=
      modify (with_goals
                (map (fun g => if decide (Goal.id g = Goal.id goal)
                               then Goal.set_completed true g else g))
                (if Goal.completed goal then []
                 else [Update TGoal (Goal.id goal)])) in
    ret (Redirect "goals").

Definition complete_goal (goal_id : Z) : request -> M response :=
  login_required (complete_goal_view goal_id).

(** [delete_goal] *)
Definition delete_goal_view (goal_id : Z) (current_user : User.t) : M response :=
  let! s := get_state in
  let! goal := get_or_404 Goal.id (goal_table s) goal_id in
  if bool_decide (Goal.user_id goal ≠ User.id current_user) then abort 403
  else
    let! _ := modify (with_goals (filter (fun g => Goal.id g ≠ Goal.id goal))
                        [Delete TGoal (Goal.id goal)]) in
    ret (Redirect "goals").

Definition delete_goal (goal_id : Z) : request -> M response :=
  login_required (delete_goal_view goal_id).

(** [settings]: the commit writes the row only if a ceiling changed. *)
Definition settings_view (req : request) (current_user : User.t) : M response :=
  let! limits := get_limits current_user in
  match method req with
  | POST =>
      let! calories := form_float req "calories" 2000 in
      let! protein := form_float req "protein" 50 in
      let! carbs := form_float req "carbs" 300 in
      let! fat := form_float req "fat" 65 in
      let! fiber := form_float req "fiber" 25 in
      let! sugar := form_float req "sugar" 50 in
      let! sodium := form_float req "sodium" 2300 in
      let! saturated_fat := form_float req "saturated_fat" 20 in
      let! cholesterol := form_float req "cholesterol" 300 in
      let! potassium := form_float req "potassium" 3500 in
      let updated :=
        DailyLimit.mk (DailyLimit.id limits) (DailyLimit.user_id limits)
                      calories protein carbs fat fiber sugar sodium
                      saturated_fat cholesterol potassium in
      let! _ :=
        modify (with_limits
                  (map (fun l => if decide (DailyLimit.id l = DailyLimit.id limits)
                                 then updated else l))
                  (if decide (updated = limits) then []
                   else [Update TDailyLimit (DailyLimit.id limits)])) in
      ret (Redirect "settings")
  | GET => ret (RenderSettings limits)
  end.

Definition settings (req : request) : M response :=
  login_required (settings_view req) req.

End Views.

(** * Specification-side definitions *)

(** The sum of one nutrient column over the rows of user [uid] dated [d],
    by recursion over the table: the "elementwise sum" of the
    specification, one column at a time. *)
Fixpoint nutrient_sum (f : Meal.t -> pyfloat) (uid d : Z) (rows : list Meal.t)
  : pyfloat :=
  match rows with
  | [] => fzero
  | m :: r =>
      if decide (Meal.user_id m = uid ∧ Meal.date m = d)
      then fadd (f m) (nutrient_sum f uid d r)
      else nutrient_sum f uid d r
  end.

(** How one numeric form input is read, with [d] the default written in the
    view: absent and empty inputs give [d], a numeric literal gives its
    value. *)
Inductive coerced (d : Z) : option string -> pyfloat -> Prop :=
  | coerced_absent : coerced d None (of_int d)
  | coerced_empty : coerced d (Some "") (of_int d)
  | coerced_numeric (text : string) (x : pyfloat) :
      float_of_str text = Some x -> coerced d (Some text) x.

(** An input that is present, not empty, and not a numeric literal. *)
Definition rejected (input : option string) : Prop :=
  ∃ text, input = Some text ∧ text ≠ "" ∧ float_of_str text = None.

(** The seven nutrient inputs of the meal form and the ten of the settings
    form, each with the default of its view. *)
Definition meal_inputs : list string :=
  ["calories"; "protein"; "carbs"; "fat"; "fiber"; "sugar"; "sodium"].

Definition limit_inputs : list (string * Z) :=
  [("calories", 2000); ("protein", 50); ("carbs", 300); ("fat", 65);
   ("fiber", 25); ("sugar", 50); ("sodium", 2300); ("saturated_fat", 20);
   ("cholesterol", 300); ("potassium", 3500)].

(** The manual-entry branch of [add_meal]: no usable image, or an image
    whose analysis came back as [None] or as a false value. *)
Definition manual_entry (json_loads : string -> option json) (e : env)
  (req : request) : Prop :=
  ∀ img, assoc "image" (files req) = Some img ->
         file_truthy img = true -> allowed_file (filename img) = true ->
         match analyze_meal_image json_loads (api_reply e) with
         | Some a => json_truthy a = false
         | None => True
         end.

(** The row [get_limits] resolves for a user, when there is one. *)
Definition limits_of (uid : Z) (s : state) : option DailyLimit.t :=
  head (filter (fun l => DailyLimit.user_id l = uid) (daily_limit_table s)).

(** A file name has an allowed extension when the text after its last dot,
    in lower case, is one of png, jpg, jpeg, webp. *)
Definition has_allowed_extension (name : string) : Prop :=
  ∃ stem ext, chars name = stem ++ ("."%char :: ext)
              ∧ ("."%char ∉ ext)
              ∧ lower (str ext) ∈ ALLOWED_EXTENSIONS.

(** The row the manual branch builds from seven read values. *)
Definition manual_meal (e : env) (req : request) (u : User.t)
  (filename : option string) (v : list pyfloat) (pk created_at : Z) : Meal.t :=
  Meal.mk pk (User.id u)
          (form_get_str (form req) "name" "Mahlzeit")
          (form_get_str (form req) "description" "")
          filename
          (form_get_str (form req) "meal_type" "snack")
          (today e) created_at
          (nth 0 v fzero) (nth 1 v fzero) (nth 2 v fzero) (nth 3 v fzero)
          (nth 4 v fzero) (nth 5 v fzero) (nth 6 v fzero)
          Meal.unset Meal.unset Meal.unset
          Meal.unset Meal.unset Meal.unset Meal.unset.

(** The answer of [add_meal] once the row [m] is stored. *)
Definition added (req : request) (m : Meal.t) : response :=
  if bool_decide (assoc "Accept" (headers req) = Some "application/json")
  then Jsonify (Meal.id m) (Meal.name m)
  else Redirect "dashboard".

(** The name under which [add_meal] stores the uploaded image, if it stores
    one. *)
Definition stored_name (secure_filename : string -> string) (e : env)
  (req : request) : option string :=
  match assoc "image" (files req) with
  | Some img =>
      if file_truthy img && allowed_file (filename img)
      then Some (uuid4_hex e +:+ "_" +:+ secure_filename (filename img))
      else None
  | None => None
  end.

(** The database once [add_meal] has saved the upload, if it saves one. *)
Definition after_upload (secure_filename : string -> string) (e : env)
  (req : request) (s : state) : state :=
  match stored_name secure_filename e req with
  | Some f => with_uploads (fun d => {[f]} ∪ d) s
  | None => s
  end.

(** A row builder that answers with a row dated today, or raises, and
    leaves the database alone. *)
Definition builds_today (e : env) (b : M (Z -> Z -> Meal.t)) (s : state) : Prop :=
  (∃ mk, b s = (Ok mk, s) ∧ ∀ pk t, Meal.date (mk pk t) = today e)
  ∨ (∃ ex, b s = (Raise ex, s)).

(** The row stored from the form carries the form's name and description
    and the seven read nutrient values. *)
Definition from_form (req : request) (m : Meal.t) : Prop :=
  Meal.name m = form_get_str (form req) "name" "Mahlzeit"
  ∧ Meal.description m = form_get_str (form req) "description" ""
  ∧ coerced 0 (assoc "calories" (form req)) (Meal.calories m)
  ∧ coerced 0 (assoc "protein" (form req)) (Meal.protein m)
  ∧ coerced 0 (assoc "carbs" (form req)) (Meal.carbs m)
  ∧ coerced 0 (assoc "fat" (form req)) (Meal.fat m)
  ∧ coerced 0 (assoc "fiber" (form req)) (Meal.fiber m)
  ∧ coerced 0 (assoc "sugar" (form req)) (Meal.sugar m)
  ∧ coerced 0 (assoc "sodium" (form req)) (Meal.sodium m).

(** The row [settings] writes: key and owner of the resolved row, the ten
    read values as ceilings. *)
Definition limits_from (l : DailyLimit.t) (v : list pyfloat) : DailyLimit.t :=
  DailyLimit.mk (DailyLimit.id l) (DailyLimit.user_id l)
                (nth 0 v fzero) (nth 1 v fzero) (nth 2 v fzero) (nth 3 v fzero)
                (nth 4 v fzero) (nth 5 v fzero) (nth 6 v fzero) (nth 7 v fzero)
                (nth 8 v fzero) (nth 9 v fzero).

(** The ten limit inputs of a request are read as the values [v]. *)
Definition reads_limits (req : request) (v : list pyfloat) : Prop :=
  Forall2 (fun kd x => coerced (snd kd) (assoc (fst kd) (form req)) x)
          limit_inputs v.

(** One of the ten limit inputs of a request is rejected. *)
Definition rejects_limits (req : request) : Prop :=
  Exists (fun kd => rejected (assoc (fst kd) (form req))) limit_inputs.

(** [rejected] as a test, to run on concrete inputs. *)
Definition rejectedb (input : option string) : bool :=
  match input with
  | Some text =>
      negb (bool_decide (text = ""))
      && match float_of_str text with Some _ => false | None => true end
  | None => false
  end.

(** ** A small database and requests to run the views on *)

Definition anna : User.t :=
  User.mk 1 "anna" "anna@example.org" "pbkdf2" 0 (Some "tok-anna").
Definition ben : User.t :=
  User.mk 2 "ben" "ben@example.org" "pbkdf2" 0 (Some "tok-ben").

Definition plain_meal (pk uid : Z) (name : string) (image : option string)
  (day created : Z) (kcal carbs : Z) : Meal.t :=
  Meal.mk pk uid name "" image "snack" day created
          (of_int kcal) (of_int 0) (of_int carbs) (of_int 0) (of_int 0)
          (of_int 0) (of_int 0) (of_int 0) (of_int 0) (of_int 0)
          (of_int 0) (of_int 0) (of_int 0) (of_int 0).

Definition apple : Meal.t := plain_meal 1 1 "Apfel" None 100 7 95 25.
Definition soup : Meal.t :=
  plain_meal 2 1 "Suppe" (Some "ab_soup.png") 100 5 250 30.
Definition bread : Meal.t := plain_meal 3 2 "Brot" None 100 6 300 50.
Definition cake : Meal.t := plain_meal 4 1 "Kuchen" None 99 1 400 60.

Definition run_goal : Goal.t :=
  Goal.mk 1 1 "Laufen" "" "weight" (of_int 70) (of_int 0) "kg" 90 None false 2.
Definition swim_goal : Goal.t :=
  Goal.mk 2 2 "Schwimmen" "" "calories" (of_int 1800) (of_int 0) "kcal" 90
          None false 3.

Definition anna_limits : DailyLimit.t :=
  DailyLimit.mk 1 1 (of_int 2000) (of_int 50) (of_int 300) (of_int 65)
                (of_int 30) (of_int 50) (of_int 2300) (of_int 20)
                (of_int 300) (of_int 3500).

Definition demo : state :=
  mkState [anna; ben] [apple; soup; bread; cake] [run_goal; swim_goal]
          [anna_limits] [] {["ab_soup.png"]}.

Definition demo_env : env := mkEnv 100 9 "cd" None.

Definition as_anna (m : http_method) (form : list (string * string))
  (files : list (string * FileStorage)) : request :=
  mkRequest m form files [] (Some 1).

Definition no_json (text : string) : option json := None.
Definition same_name (name : string) : string := name.
Definition no_date (text : string) : option Z := None.

Definition stored_apple : Meal.t := plain_meal 5 1 "Apfel" None 100 9 95 0.

(** A decoder that reads every text as one object with two entries. *)
Definition salad_json (text : string) : option json :=
  Some (JObj [("name", JStr "Salat"); ("calories", JNum (of_int 120))]).

(** A decoder that reads every text as a one-element array. *)
Definition array_json (text : string) : option json :=
  Some (JArr [JNum (of_int 1)]).

Definition calories_shown (o : outcome response) : option pyfloat :=
  match o with
  | Ok (RenderDashboard ctx) => assoc "calories" (page_totals ctx)
  | _ => None
  end.

Definition apple_request : request :=
  as_anna POST [("name", "Apfel"); ("calories", "95")] [].

Definition pasta_request (image : string) : request :=
  as_anna POST [("name", "Nudeln"); ("calories", "480"); ("fiber", "")]
          [("image", mkFile image)].

Definition limits_request (fiber : string) : request :=
  as_anna POST [("calories", "1800"); ("fiber", fiber)] [].

Definition bad_form : list (string * string) :=
  [("name", "Apfel"); ("calories", "abc")].

(** ** app.py: accounts *)

Definition with_users (f : list User.t -> list User.t) (w : list write)
  (s : state) : state :=
  mkState (f (user_table s)) (meal_table s) (goal_table s)
          (daily_limit_table s) (journal s ++ w) (uploads s).

(** What [register] and [login] take from their libraries: the token drawn
    by [secrets.token_urlsafe(32)] for this request and werkzeug's two
    password functions. *)
Record accounts : Type := mkAccounts {
  token_urlsafe : string;
  generate_password_hash : string -> string;
  check_password_hash : string -> string -> bool }.

(** Answer of an account view: the response together with the user id the
    session holds afterwards ([login_user], [logout_user]), or the
    [IntegrityError] a commit raises on a unique column, which nothing
    catches. *)
Inductive account_answer : Type :=
  | Answered (r : response) (session : option Z)
  | UncaughtIntegrityError.

(** The unique columns of [User]: [username], [email], [share_token]. *)
Definition violates_unique (user : User.t) (rows : list User.t) : bool :=
  bool_decide (User.username user ∈ map User.username rows)
  || bool_decide (User.email user ∈ map User.email rows)
  || match User.share_token user with
     | Some t => bool_decide (t ∈ omap User.share_token rows)
     | None => false
     end.

(** [register] *)
Definition register (a : accounts) (e : env) (req : request)
  : M account_answer :=
  let! s := get_state in
  match current_user s req with
  | Some _ => ret (Answered (Redirect "dashboard") (session_user_id req))
  | None =>
      match method req with
      | POST =>
          let username := strip (form_get_str (form req) "username" "") in
          let email := strip (form_get_str (form req) "email" "") in
          let password := form_get_str (form req) "password" "" in
          if bool_decide (username = "") || bool_decide (email = "")
             || bool_decide (password = "")
          then ret (Answered (Redirect "register") (session_user_id req))
          else
            match head (filter (fun u => User.username u = username
                                         ∨ User.email u = email)
                               (user_table s)) with
            | Some _ =>
                ret (Answered (Redirect "register") (session_user_id req))
            | None =>
                let user :=
                  User.mk (next_id (map User.id (user_table s))) username
                          email (generate_password_hash a password)
                          (utcnow e) (Some (token_urlsafe a)) in
                if violates_unique user (user_table s)
                then ret UncaughtIntegrityError
                else
                  let! _ := modify (with_users (fun t => t ++ [user])
                                      [Insert TUser (User.id user)]) in
                  let! _ := get_limits user in
                  ret (Answered (Redirect "dashboard") (Some (User.id user)))
            end
      | GET =>
          ret (Answered (RenderTemplate "register.html") (session_user_id req))
      end
  end.

(** [login] *)
Definition login (a : accounts) (req : request) : M account_answer :=
  let! s := get_state in
  match current_user s req with
  | Some _ => ret (Answered (Redirect "dashboard") (session_user_id req))
  | None =>
      let rendered :=
        Answered (RenderTemplate "login.html") (session_user_id req) in
      match method req with
      | POST =>
          let username := strip (form_get_str (form req) "username" "") in
          let password := form_get_str (form req) "password" "" in
          match head (filter (fun u => User.username u = username)
                             (user_table s)) with
          | Some user =>
              if check_password_hash a (User.password_hash user) password
              then ret (Answered (Redirect "dashboard") (Some (User.id user)))
              else ret rendered
          | None => ret rendered
          end
      | GET => ret rendered
      end
  end.

(** [logout] *)
Definition logout (req : request) : M account_answer :=
  let! s := get_state in
  match current_user s req with
  | Some _ => ret (Answered (Redirect "login") None)
  | None => ret (Answered (Redirect "login") (session_user_id req))
  end.

(** ** app.py: the goals page *)

Fixpoint insert_newest (g : Goal.t) (l : list Goal.t) : list Goal.t :=
  match l with
  | [] => [g]
  | x :: r =>
      if Goal.created_at x <=? Goal.created_at g then g :: l
      else x :: insert_newest g r
  end.

(** [.order_by(Goal.created_at.desc())]: descending, rows with equal keys
    in table order. *)
Definition newest_first (l : list Goal.t) : list Goal.t :=
  foldr insert_newest [] l.

Record goals_page : Type := mkGoalsPage {
  active_goals : list Goal.t;
  completed_goals : list Goal.t }.

(** The body of [goals], run for the user [@login_required] lets
    through. *)
Definition goals_view (current_user : User.t) : M goals_page :=
  let! s := get_state in
  let active_goals :=
    newest_first
      (filter (fun g => Goal.user_id g = User.id current_user
                        ∧ Goal.completed g = false) (goal_table s)) in
  let completed_goals :=
    take 10
      (newest_first
         (filter (fun g => Goal.user_id g = User.id current_user
                           ∧ Goal.completed g = true) (goal_table s))) in
  ret (mkGoalsPage active_goals completed_goals).

(** ** Sequences of requests *)

(** One request to one of the views. *)
Inductive call : Type :=
  | Register (a : accounts) (e : env) (req : request)
  | Login (a : accounts) (req : request)
  | Logout (req : request)
  | Dashboard (e : env) (req : request)
  | AddMeal (e : env) (req : request)
  | DeleteMeal (meal_id : Z) (req : request)
  | WeeklyPlan (e : env) (req : request)
  | AddGoal (e : env) (req : request)
  | CompleteGoal (goal_id : Z) (req : request)
  | DeleteGoal (goal_id : Z) (req : request)
  | Settings (req : request)
  | SharedProfile (e : env) (token : string).

Definition empty_database : state := mkState [] [] [] [] [] ∅.

Section Requests.

Variable secure_filename : string -> string.
Variable json_loads : string -> option json.
Variable strptime_date : string -> option Z.

(** The database a request leaves behind. *)
Definition serve (c : call) (s : state) : state :=
  match c with
  | Register a e req => snd (register a e req s)
  | Login a req => snd (login a req s)
  | Logout req => snd (logout req s)
  | Dashboard e req => snd (dashboard e req s)
  | AddMeal e req => snd (add_meal secure_filename json_loads e req s)
  | DeleteMeal meal_id req => snd (delete_meal meal_id req s)
  | WeeklyPlan e req => snd (weekly_plan e req s)
  | AddGoal e req => snd (add_goal strptime_date e req s)
  | CompleteGoal goal_id req => snd (complete_goal goal_id req s)
  | DeleteGoal goal_id req => snd (delete_goal goal_id req s)
  | Settings req => snd (settings req s)
  | SharedProfile e token => snd (shared_profile e token s)
  end.

(** The databases the application can be in: the empty one ([db.create_all()]
    on first start) and whatever any sequence of requests makes of it. *)
Inductive reachable : state -> Prop :=
  | reachable_empty : reachable empty_database
  | reachable_serve (c : call) (s : state) :
      reachable s -> reachable (serve c s).

End Requests.

(** Primary keys are unique in each table. *)
Definition keys_unique (s : state) : Prop :=
  NoDup (map User.id (user_table s))
  ∧ NoDup (map Meal.id (meal_table s))
  ∧ NoDup (map Goal.id (goal_table s))
  ∧ NoDup (map DailyLimit.id (daily_limit_table s)).

(** The columns declared [unique=True] hold no value twice. *)
Definition accounts_unique (s : state) : Prop :=
  NoDup (map User.username (user_table s))
  ∧ NoDup (map User.email (user_table s))
  ∧ NoDup (omap User.share_token (user_table s)).

(** No user has two [DailyLimit] rows. *)
Definition one_limits_row_per_user (s : state) : Prop :=
  NoDup (map DailyLimit.user_id (daily_limit_table s)).

Definition user_exists (s : state) (uid : Z) : Prop :=
  ∃ u, u ∈ user_table s ∧ User.id u = uid.

(** Every meal, goal and limits row belongs to a user of the table. *)
Definition owners_exist (s : state) : Prop :=
  (∀ m, m ∈ meal_table s -> user_exists s (Meal.user_id m))
  ∧ (∀ g, g ∈ goal_table s -> user_exists s (Goal.user_id g))
  ∧ (∀ l, l ∈ daily_limit_table s -> user_exists s (DailyLimit.user_id l)).

(** The four properties together. *)
Definition consistent (s : state) : Prop :=
  keys_unique s ∧ accounts_unique s ∧ one_limits_row_per_user s
  ∧ owners_exist s.

(** A view that only reads leaves the database as it was or as
    [get_limits] of a stored user leaves it. *)
Definition read_only (s s' : state) : Prop :=
  s' = s ∨ ∃ u, u ∈ user_table s ∧ s' = snd (get_limits u s).

(** The column a key of the dashboard's totals sums. *)
Definition nutrient_column (k : string) : option (Meal.t -> pyfloat) :=
  assoc k [("calories", Meal.calories); ("protein", Meal.protein);
           ("carbs", Meal.carbs); ("fat", Meal.fat); ("fiber", Meal.fiber);
           ("sugar", Meal.sugar); ("sodium", Meal.sodium)].

(** What a meal adds to the total under key [k]. *)
Definition share_of (m : Meal.t) (k : string) : pyfloat :=
  match nutrient_column k with
  | Some f => f m
  | None => fzero
  end.

(** A row builder that answers with a row of user [u] dated today and keyed
    as asked, or raises, and leaves the database alone. *)
Definition builds_for (e : env) (u : User.t) (b : M (Z -> Z -> Meal.t))
  (s : state) : Prop :=
  (∃ mk, b s = (Ok mk, s)
         ∧ ∀ pk t, Meal.id (mk pk t) = pk
                   ∧ Meal.user_id (mk pk t) = User.id u
                   ∧ Meal.date (mk pk t) = today e)
  ∨ (∃ ex, b s = (Raise ex, s)).

(** What a run of [add_meal] can have done: nothing to the meals, or one
    row appended for the caller. *)
Definition meal_effect (e : env) (req : request) (s s' : state) : Prop :=
  user_table s' = user_table s
  ∧ goal_table s' = goal_table s
  ∧ daily_limit_table s' = daily_limit_table s
  ∧ (meal_table s' = meal_table s
     ∨ ∃ u m, current_user s req = Some u
              ∧ meal_table s' = meal_table s ++ [m]
              ∧ Meal.id m = next_id (map Meal.id (meal_table s))
              ∧ Meal.user_id m = User.id u
              ∧ Meal.date m = today e).

(** The account [register] creates for a request: the caller is anonymous,
    the form is posted with a username and an email that are not blank and
    a password that is not empty, and neither the username, the email nor
    the drawn token is in use. *)
Definition registers (a : accounts) (e : env) (req : request) (s : state)
  (user : User.t) : Prop :=
  current_user s req = None
  ∧ method req = POST
  ∧ user
    = User.mk (next_id (map User.id (user_table s)))
              (strip (form_get_str (form req) "username" ""))
              (strip (form_get_str (form req) "email" ""))
              (generate_password_hash a (form_get_str (form req) "password" ""))
              (utcnow e) (Some (token_urlsafe a))
  ∧ User.username user ≠ ""
  ∧ User.email user ≠ ""
  ∧ form_get_str (form req) "password" "" ≠ ""
  ∧ ∀ u, u ∈ user_table s ->
         User.username u ≠ User.username user
         ∧ User.email u ≠ User.email user
         ∧ User.share_token u ≠ Some (token_urlsafe a).

(** The baseline ceilings, in column order. *)
Definition baseline : list pyfloat :=
  [of_int 2000; of_int 50; of_int 300; of_int 65; of_int 25; of_int 50;
   of_int 2300; of_int 20; of_int 300; of_int 3500].

(** Newest first. *)
Definition not_older (x y : Goal.t) : Prop :=
  Goal.created_at y <= Goal.created_at x.

(** Accounts for the small database: a token and a toy password scheme. *)
Definition demo_accounts : accounts :=
  mkAccounts "tok-carl" (fun p => "h:" +:+ p)
             (fun h p => bool_decide (h = "h:" +:+ p)).

Definition carl_form : list (string * string) :=
  [("username", " carl "); ("email", "carl@example.org"); ("password", "pw")].

Definition anonymous (m : http_method) (form : list (string * string))
  : request :=
  mkRequest m form [] [] None.

Definition carl : User.t :=
  User.mk 3 "carl" "carl@example.org" "h:pw" 9 (Some "tok-carl").

Definition carl_request : request := anonymous POST carl_form.

Definition walk_request : request :=
  as_anna POST [("title", "Gehen"); ("target_value", "5")] [].

(** A decoder that answers with the text it is given, as a JSON string. *)
Definition echo_json (text : string) : option json := Some (JStr text).

(** * Arithmetic of sums *)

Lemma fadd_comm (a b : pyfloat) : fadd a b = fadd b a.
Proof.
  destruct a, b; simpl; try reflexivity.
  f_equal. apply Qcplus_comm.
Qed.

Lemma fadd_assoc (a b c : pyfloat) : fadd a (fadd b c) = fadd (fadd a b) c.
Proof.
  destruct a, b, c; simpl; try reflexivity.
  f_equal. apply Qcplus_assoc.
Qed.

Lemma fadd_zero_l (a : pyfloat) : fadd fzero a = a.
Proof. destruct a; simpl; try reflexivity. f_equal. apply Qcplus_0_l. Qed.

Lemma fadd_zero_r (a : pyfloat) : fadd a fzero = a.
Proof. rewrite fadd_comm. apply fadd_zero_l. Qed.

Lemma fold_left_fadd (l : list pyfloat) (a : pyfloat) :
  fold_left fadd l a = fadd a (fold_left fadd l fzero).
Proof.
  revert a. induction l as [|x l IH]; intros a; cbn [fold_left].
  - symmetry. apply fadd_zero_r.
  - rewrite (IH (fadd a x)), (IH (fadd fzero x)).
    rewrite fadd_zero_l. symmetry. apply fadd_assoc.
Qed.

Lemma py_sum_nil : py_sum [] = fzero.
Proof. reflexivity. Qed.

Lemma py_sum_cons (x : pyfloat) (l : list pyfloat) :
  py_sum (x :: l) = fadd x (py_sum l).
Proof.
  unfold py_sum. cbn [fold_left].
  rewrite fold_left_fadd, fadd_zero_l. reflexivity.
Qed.

(** The order in which a query hands over its rows does not change a sum. *)
Lemma py_sum_permutation (l1 l2 : list pyfloat) :
  l1 ≡ₚ l2 -> py_sum l1 = py_sum l2.
Proof.
  induction 1 as [|x l l' _ IH|x y l|l l' l'' _ IH1 _ IH2].
  - reflexivity.
  - rewrite !py_sum_cons, IH. reflexivity.
  - rewrite !py_sum_cons, !fadd_assoc, (fadd_comm y x). reflexivity.
  - congruence.
Qed.

Lemma insert_by_created_at_perm (m : Meal.t) (l : list Meal.t) :
  insert_by_created_at m l ≡ₚ m :: l.
Proof.
  induction l as [|x l IH]; simpl; [reflexivity|].
  destruct (Meal.created_at m <=? Meal.created_at x); [reflexivity|].
  rewrite IH. apply Permutation_swap.
Qed.

Lemma order_by_created_at_perm (l : list Meal.t) : order_by_created_at l ≡ₚ l.
Proof.
  induction l as [|x l IH]; simpl; [reflexivity|].
  rewrite insert_by_created_at_perm. constructor. exact IH.
Qed.

Lemma sum_of_permutation (f : Meal.t -> pyfloat) (l1 l2 : list Meal.t) :
  l1 ≡ₚ l2 -> sum_of f l1 = sum_of f l2.
Proof.
  intros H. unfold sum_of. apply py_sum_permutation.
  apply Permutation_map. exact H.
Qed.

Lemma sum_of_filter (f : Meal.t -> pyfloat) (uid d : Z) (s : state) :
  sum_of f (meals_filter_by uid d s) = nutrient_sum f uid d (meal_table s).
Proof.
  unfold meals_filter_by, sum_of.
  induction (meal_table s) as [|m r IH]; [reflexivity|].
  rewrite filter_cons. simpl.
  destruct (decide (Meal.user_id m = uid ∧ Meal.date m = d)).
  - simpl. rewrite py_sum_cons, IH. reflexivity.
  - exact IH.
Qed.

Lemma sum_of_ordered (f : Meal.t -> pyfloat) (uid d : Z) (s : state) :
  sum_of f (order_by_created_at (meals_filter_by uid d s))
  = nutrient_sum f uid d (meal_table s).
Proof.
  rewrite (sum_of_permutation f _ _ (order_by_created_at_perm _)).
  apply sum_of_filter.
Qed.

Lemma nutrient_sum_no_meals (f : Meal.t -> pyfloat) (uid d : Z) (s : state) :
  meals_filter_by uid d s = [] -> nutrient_sum f uid d (meal_table s) = fzero.
Proof.
  intros H. rewrite <- sum_of_filter, H. reflexivity.
Qed.

(** * The limit resolver *)

Lemma get_limits_hit (u : User.t) (s : state) (l : DailyLimit.t) :
  limits_of (User.id u) s = Some l -> get_limits u s = (Ok l, s).
Proof.
  unfold limits_of, get_limits, bind, get_state. intros ->. reflexivity.
Qed.

Lemma get_limits_miss (u : User.t) (s : state) :
  limits_of (User.id u) s = None ->
  let l := DailyLimit.fresh (next_id (map DailyLimit.id (daily_limit_table s)))
                            (User.id u) in
  get_limits u s
  = (Ok l, with_limits (fun t => t ++ [l]) [Insert TDailyLimit (DailyLimit.id l)] s).
Proof.
  unfold limits_of, get_limits, bind, get_state. intros ->. reflexivity.
Qed.

(** A row found for a user is found again after any change that keeps the
    table of limits. *)
Lemma limits_of_after_miss (uid : Z) (s : state) (l : DailyLimit.t) :
  limits_of uid s = None -> DailyLimit.user_id l = uid ->
  limits_of uid (with_limits (fun t => t ++ [l])
                             [Insert TDailyLimit (DailyLimit.id l)] s) = Some l.
Proof.
  unfold limits_of. cbn [with_limits daily_limit_table]. intros Hnone Hl.
  rewrite filter_app.
  destruct (filter _ (daily_limit_table s)) as [|x r] eqn:E; [|discriminate].
  rewrite filter_cons. destruct (decide (DailyLimit.user_id l = uid)); [|done].
  reflexivity.
Qed.

(** [get_limits] always answers, and touches nothing but the table of
    limits and the journal. *)
Lemma get_limits_total (u : User.t) (s : state) :
  ∃ l s', get_limits u s = (Ok l, s')
          ∧ limits_of (User.id u) s' = Some l
          ∧ user_table s' = user_table s ∧ meal_table s' = meal_table s
          ∧ goal_table s' = goal_table s ∧ uploads s' = uploads s.
Proof.
  destruct (limits_of (User.id u) s) as [l|] eqn:E.
  - exists l, s. rewrite (get_limits_hit _ _ _ E). repeat split; done.
  - eexists _, _. rewrite (get_limits_miss _ _ E).
    split; [reflexivity|]. split; [|repeat split; done].
    apply limits_of_after_miss; [exact E|reflexivity].
Qed.

(** * C1: aggregation *)


(** * C4: resolving the limits twice *)

(** C4. Two calls of [get_limits] in a row, with nothing in between: both
    answer, the two rows are equal (hence their ten ceilings), and the
    second call leaves the database, and so its journal of writes, exactly
    as the first left it. *)
Theorem get_limits_twice (u : User.t) (s : state) :
  ∃ l1 s1 l2 s2,
    get_limits u s = (Ok l1, s1)
    ∧ get_limits u s1 = (Ok l2, s2)
    ∧ l2 = l1
    ∧ DailyLimit.ceilings l2 = DailyLimit.ceilings l1
    ∧ journal s2 = journal s1
    ∧ s2 = s1.
Proof.
  destruct (get_limits_total u s) as (l & s1 & Hrun & Hfound & _).
  exists l, s1, l, s1. rewrite Hrun, (get_limits_hit _ _ _ Hfound).
  repeat split; reflexivity.
Qed.

(** The same holds after any steps in between that keep the table of
    limits, such as the meal and goal views. *)
Lemma get_limits_again (u : User.t) (s s1 s2 : state) (l : DailyLimit.t) :
  get_limits u s = (Ok l, s1) ->
  daily_limit_table s2 = daily_limit_table s1 ->
  get_limits u s2 = (Ok l, s2).
Proof.
  intros Hrun Htab.
  destruct (get_limits_total u s) as (l' & s1' & Hrun' & Hfound & _).
  rewrite Hrun in Hrun'. injection Hrun' as <- <-.
  apply get_limits_hit. unfold limits_of in *. rewrite Htab. exact Hfound.
Qed.

(** The first call writes exactly when the user has no row yet. *)
Lemma get_limits_write_on_miss (u : User.t) (s : state) :
  journal (snd (get_limits u s)) = journal s
  ↔ is_Some (limits_of (User.id u) s).
Proof.
  destruct (limits_of (User.id u) s) as [l|] eqn:E.
  - rewrite (get_limits_hit _ _ _ E). split; [eauto|reflexivity].
  - rewrite (get_limits_miss _ _ E). cbn [snd with_limits journal]. split.
    + intros H. apply (f_equal length) in H. rewrite length_app in H.
      simpl in H. lia.
    + intros [? ?]. discriminate.
Qed.

(** * C5: ownership of goals and meals *)

Lemma head_filter_pk {A : Type} (pk_of : A -> Z) (rows : list A) (r : A) :
  NoDup (map pk_of rows) -> r ∈ rows ->
  head (filter (fun x => pk_of x = pk_of r) rows) = Some r.
Proof.
  induction rows as [|x rows IH]; intros Hnd Hin.
  - apply elem_of_nil in Hin. contradiction.
  - cbn [map] in Hnd. apply NoDup_cons in Hnd as [Hx Hnd].
    rewrite filter_cons. apply elem_of_cons in Hin as [-> | Hin].
    + destruct (decide (pk_of x = pk_of x)); [reflexivity|congruence].
    + destruct (decide (pk_of x = pk_of r)) as [Heq|Hne].
      * exfalso. apply Hx. rewrite Heq.
        apply (list_elem_of_fmap_2 pk_of). exact Hin.
      * apply IH; assumption.
Qed.

Lemma head_filter_absent {A : Type} (pk_of : A -> Z) (rows : list A) (pk : Z) :
  (∀ r, r ∈ rows -> pk_of r ≠ pk) ->
  head (filter (fun x => pk_of x = pk) rows) = None.
Proof.
  intros H. induction rows as [|x rows IH]; [reflexivity|].
  rewrite filter_cons. destruct (decide (pk_of x = pk)) as [Heq|_].
  - exfalso. apply (H x); [left|exact Heq].
  - apply IH. intros r Hr. apply H. right. exact Hr.
Qed.

Lemma pk_injective {A : Type} (pk_of : A -> Z) (rows : list A) (x y : A) :
  NoDup (map pk_of rows) -> x ∈ rows -> y ∈ rows -> pk_of x = pk_of y -> x = y.
Proof.
  intros Hnd Hx Hy Heq.
  pose proof (head_filter_pk pk_of rows x Hnd Hx) as H1.
  pose proof (head_filter_pk pk_of rows y Hnd Hy) as H2.
  rewrite Heq in H1. congruence.
Qed.

Lemma get_or_404_found {A : Type} (pk_of : A -> Z) (rows : list A) (r : A)
  (s : state) :
  NoDup (map pk_of rows) -> r ∈ rows ->
  get_or_404 pk_of rows (pk_of r) s = (Ok r, s).
Proof.
  intros Hnd Hin. unfold get_or_404.
  rewrite (head_filter_pk pk_of rows r Hnd Hin). reflexivity.
Qed.

Lemma get_or_404_absent {A : Type} (pk_of : A -> Z) (rows : list A) (pk : Z)
  (s : state) :
  (∀ r, r ∈ rows -> pk_of r ≠ pk) ->
  get_or_404 pk_of rows pk s = (Abort 404, s).
Proof.
  intros H. unfold get_or_404. rewrite (head_filter_absent pk_of rows pk H).
  reflexivity.
Qed.

Lemma login_required_user (view : User.t -> M response) (req : request)
  (s : state) (u : User.t) :
  current_user s req = Some u -> login_required view req s = view u s.
Proof. unfold login_required. intros ->. reflexivity. Qed.

Lemma login_required_anonymous (view : User.t -> M response) (req : request)
  (s : state) :
  current_user s req = None ->
  login_required view req s = (Ok (Redirect "login"), s).
Proof. unfold login_required. intros ->. reflexivity. Qed.

Section Ownership.

Variables (req : request) (s : state) (u : User.t).
Hypothesis Hu : current_user s req = Some u.

Lemma complete_goal_absent (pk : Z) :
  (∀ g, g ∈ goal_table s -> Goal.id g ≠ pk) ->
  complete_goal pk req s = (Abort 404, s).
Proof.
  intros H. unfold complete_goal. rewrite (login_required_user _ _ _ _ Hu).
  unfold complete_goal_view, bind, get_state.
  rewrite (get_or_404_absent _ _ _ _ H). reflexivity.
Qed.

Lemma delete_goal_absent (pk : Z) :
  (∀ g, g ∈ goal_table s -> Goal.id g ≠ pk) ->
  delete_goal pk req s = (Abort 404, s).
Proof.
  intros H. unfold delete_goal. rewrite (login_required_user _ _ _ _ Hu).
  unfold delete_goal_view, bind, get_state.
  rewrite (get_or_404_absent _ _ _ _ H). reflexivity.
Qed.

Lemma delete_meal_absent (pk : Z) :
  (∀ m, m ∈ meal_table s -> Meal.id m ≠ pk) ->
  delete_meal pk req s = (Abort 404, s).
Proof.
  intros H. unfold delete_meal. rewrite (login_required_user _ _ _ _ Hu).
  unfold delete_meal_view, bind, get_state.
  rewrite (get_or_404_absent _ _ _ _ H). reflexivity.
Qed.

Hypothesis goal_pk : NoDup (map Goal.id (goal_table s)).
Hypothesis meal_pk : NoDup (map Meal.id (meal_table s)).

Lemma complete_goal_foreign (g : Goal.t) :
  g ∈ goal_table s -> Goal.user_id g ≠ User.id u ->
  complete_goal (Goal.id g) req s = (Abort 403, s).
Proof.
  intros Hin Hown. unfold complete_goal.
  rewrite (login_required_user _ _ _ _ Hu).
  unfold complete_goal_view, bind, get_state.
  rewrite (get_or_404_found _ _ _ _ goal_pk Hin).
  rewrite bool_decide_eq_true_2 by exact Hown. reflexivity.
Qed.

Lemma delete_goal_foreign (g : Goal.t) :
  g ∈ goal_table s -> Goal.user_id g ≠ User.id u ->
  delete_goal (Goal.id g) req s = (Abort 403, s).
Proof.
  intros Hin Hown. unfold delete_goal.
  rewrite (login_required_user _ _ _ _ Hu).
  unfold delete_goal_view, bind, get_state.
  rewrite (get_or_404_found _ _ _ _ goal_pk Hin).
  rewrite bool_decide_eq_true_2 by exact Hown. reflexivity.
Qed.

Lemma delete_meal_foreign (m : Meal.t) :
  m ∈ meal_table s -> Meal.user_id m ≠ User.id u ->
  delete_meal (Meal.id m) req s = (Abort 403, s).
Proof.
  intros Hin Hown. unfold delete_meal.
  rewrite (login_required_user _ _ _ _ Hu).
  unfold delete_meal_view, bind, get_state.
  rewrite (get_or_404_found _ _ _ _ meal_pk Hin).
  rewrite bool_decide_eq_true_2 by exact Hown. reflexivity.
Qed.

Lemma complete_goal_own (g : Goal.t) :
  g ∈ goal_table s -> Goal.user_id g = User.id u ->
  ∃ s', complete_goal (Goal.id g) req s = (Ok (Redirect "goals"), s')
        ∧ Goal.set_completed true g ∈ goal_table s'
        ∧ ∀ g', Goal.id g' ≠ Goal.id g ->
                (g' ∈ goal_table s' ↔ g' ∈ goal_table s).
Proof.
  intros Hin Hown. unfold complete_goal.
  rewrite (login_required_user _ _ _ _ Hu).
  unfold complete_goal_view, bind, get_state.
  rewrite (get_or_404_found _ _ _ _ goal_pk Hin).
  rewrite bool_decide_eq_false_2 by (intros H; apply H; exact Hown).
  eexists. split; [reflexivity|]. cbn [with_goals goal_table]. split.
  - apply list_elem_of_fmap. exists g. split; [|exact Hin].
    destruct (decide (Goal.id g = Goal.id g)); [reflexivity|congruence].
  - intros g' Hne. rewrite list_elem_of_fmap. split.
    + intros (y & -> & Hy).
      destruct (decide (Goal.id y = Goal.id g)) as [Heq|_]; [|exact Hy].
      exfalso. apply Hne. exact Heq.
    + intros Hg'. exists g'. split; [|exact Hg'].
      destruct (decide (Goal.id g' = Goal.id g)); [contradiction|reflexivity].
Qed.

Lemma delete_goal_own (g : Goal.t) :
  g ∈ goal_table s -> Goal.user_id g = User.id u ->
  ∃ s', delete_goal (Goal.id g) req s = (Ok (Redirect "goals"), s')
        ∧ ∀ g', g' ∈ goal_table s' ↔ g' ∈ goal_table s ∧ g' ≠ g.
Proof.
  intros Hin Hown. unfold delete_goal.
  rewrite (login_required_user _ _ _ _ Hu).
  unfold delete_goal_view, bind, get_state.
  rewrite (get_or_404_found _ _ _ _ goal_pk Hin).
  rewrite bool_decide_eq_false_2 by (intros H; apply H; exact Hown).
  eexists. split; [reflexivity|]. cbn [with_goals goal_table].
  intros g'. rewrite list_elem_of_filter. split.
  - intros [Hne Hg']. split; [exact Hg'|]. intros ->. apply Hne. reflexivity.
  - intros [Hg' Hne]. split; [|exact Hg']. intros Heq. apply Hne.
    apply (pk_injective Goal.id (goal_table s)); assumption.
Qed.

Lemma delete_meal_own (m : Meal.t) :
  m ∈ meal_table s -> Meal.user_id m = User.id u ->
  ∃ s', delete_meal (Meal.id m) req s = (Ok (Redirect "dashboard"), s')
        ∧ (∀ m', m' ∈ meal_table s' ↔ m' ∈ meal_table s ∧ m' ≠ m)
        ∧ ∀ path, Meal.image_path m = Some path -> path ≠ "" ->
                  path ∉ uploads s'.
Proof.
  intros Hin Hown. unfold delete_meal.
  rewrite (login_required_user _ _ _ _ Hu).
  unfold delete_meal_view, bind, get_state.
  rewrite (get_or_404_found _ _ _ _ meal_pk Hin).
  rewrite bool_decide_eq_false_2 by (intros H; apply H; exact Hown).
  assert (Hrows : ∀ (t : list Meal.t) m',
             m' ∈ filter (fun x => Meal.id x ≠ Meal.id m) t
                          ↔ m' ∈ t ∧ Meal.id m' ≠ Meal.id m).
  { intros t m'. rewrite list_elem_of_filter. tauto. }
  assert (Hmem : ∀ m', m' ∈ meal_table s ->
                       (Meal.id m' ≠ Meal.id m ↔ m' ≠ m)).
  { intros m' Hm'. split.
    - intros Hne ->. apply Hne. reflexivity.
    - intros Hne Heq. apply Hne.
      apply (pk_injective Meal.id (meal_table s)); assumption. }
  destruct (Meal.image_path m) as [path|] eqn:Epath.
  - destruct (bool_decide (path = "")) eqn:Eempty; cbn [negb].
    + eexists. split; [reflexivity|]. cbn [with_meals meal_table]. split.
      * intros m'. rewrite Hrows. specialize (Hmem m'). tauto.
      * intros p [= <-] Hp. apply bool_decide_eq_true_1 in Eempty.
        contradiction.
    + eexists. split; [reflexivity|].
      cbn [with_meals with_uploads meal_table uploads modify]. split.
      * intros m'. rewrite Hrows. specialize (Hmem m'). tauto.
      * intros p [= <-] _. rewrite elem_of_difference, elem_of_singleton.
        tauto.
  - eexists. split; [reflexivity|]. cbn [with_meals meal_table]. split.
    + intros m'. rewrite Hrows. specialize (Hmem m'). tauto.
    + intros p Hp. discriminate.
Qed.

End Ownership.


(** * Allowed file names *)

Lemma split_first_char (c : ascii) (l a b : list ascii) :
  split_first [c] l = Some (a, b) ↔ l = a ++ c :: b ∧ c ∉ a.
Proof.
  revert a. induction l as [|x r IH]; intros a.
  - cbn. split; [discriminate|]. intros [H _].
    destruct a; discriminate H.
  - cbn [split_first starts_with length drop].
    destruct (decide (c = x)) as [<-|Hne].
    + split.
      * intros [= <- <-]. split; [reflexivity|]. apply not_elem_of_nil.
      * intros [H Hnot]. destruct a as [|y a'].
        -- injection H as <-. reflexivity.
        -- injection H as <- _. exfalso. apply Hnot. left.
    + remember (split_first [c] r) as o eqn:E in |- *. symmetry in E.
      destruct o as [[a' b']|].
      * split.
        -- intros [= <- <-]. apply IH in E as [-> Hnot].
           split; [reflexivity|].
           intros [?|?]%elem_of_cons; [congruence|contradiction].
        -- intros [H Hnot]. destruct a as [|y a''].
           ++ injection H as -> _. congruence.
           ++ injection H as <- H.
              assert (Hs : split_first [c] r = Some (a'', b)).
              { apply IH. split; [exact H|].
                intros Hin. apply Hnot. right. exact Hin. }
              rewrite E in Hs. injection Hs as -> ->. reflexivity.
      * split; [discriminate|]. intros [H Hnot]. destruct a as [|y a''].
        -- injection H as -> _. congruence.
        -- injection H as <- H.
           assert (Hs : split_first [c] r = Some (a'', b)).
           { apply IH. split; [exact H|].
             intros Hin. apply Hnot. right. exact Hin. }
           rewrite E in Hs. discriminate.
Qed.

Lemma elem_of_rev {A : Type} (x : A) (l : list A) : x ∈ rev l ↔ x ∈ l.
Proof. rewrite !list_elem_of_In. symmetry. apply in_rev. Qed.

Lemma rsplit_last_char (c : ascii) (l a b : list ascii) :
  rsplit_last [c] l = Some (a, b) ↔ l = a ++ c :: b ∧ c ∉ b.
Proof.
  unfold rsplit_last. cbn [rev app].
  destruct (split_first [c] (rev l)) as [[a' b']|] eqn:E.
  - apply split_first_char in E as [E Hnot]. split.
    + intros [= <- <-]. split.
      * rewrite <- (rev_involutive l), E, rev_app_distr. cbn [rev].
        rewrite <- app_assoc. reflexivity.
      * intros Hin. apply Hnot. rewrite elem_of_rev in Hin. exact Hin.
    + intros [-> Hb]. rewrite rev_app_distr in E. cbn [rev] in E.
      rewrite <- app_assoc in E. cbn [app] in E.
      assert (Hs : split_first [c] (rev b ++ c :: rev a)
                   = Some (rev b, rev a)).
      { apply split_first_char. split; [reflexivity|].
        intros Hin. apply Hb. rewrite elem_of_rev in Hin. exact Hin. }
      assert (Hs' : split_first [c] (rev b ++ c :: rev a) = Some (a', b')).
      { apply split_first_char. split; [exact E|exact Hnot]. }
      rewrite Hs in Hs'. injection Hs' as <- <-.
      rewrite !rev_involutive. reflexivity.
  - split; [discriminate|]. intros [-> Hb]. exfalso.
    assert (Hs : split_first [c] (rev (a ++ c :: b)) = Some (rev b, rev a)).
    { apply split_first_char. split.
      - rewrite rev_app_distr. cbn [rev]. rewrite <- app_assoc. reflexivity.
      - intros Hin. apply Hb. rewrite elem_of_rev in Hin. exact Hin. }
    rewrite E in Hs. discriminate.
Qed.

Lemma allowed_file_spec (name : string) :
  allowed_file name = true ↔ has_allowed_extension name.
Proof.
  unfold allowed_file, has_allowed_extension, contains_char. split.
  - intros H. apply andb_prop in H as [_ H].
    destruct (rsplit_last ["."%char] (chars name)) as [[stem ext]|] eqn:E;
      [|discriminate].
    apply rsplit_last_char in E as [E Hnot].
    exists stem, ext. split; [exact E|]. split; [exact Hnot|].
    apply bool_decide_eq_true_1 in H. exact H.
  - intros (stem & ext & E & Hnot & Hext).
    assert (Hs : rsplit_last ["."%char] (chars name) = Some (stem, ext)).
    { apply rsplit_last_char. split; assumption. }
    rewrite Hs. apply andb_true_intro. split.
    + apply bool_decide_eq_true_2. rewrite E.
      apply elem_of_app. right. left.
    + apply bool_decide_eq_true_2. exact Hext.
Qed.

Lemma allowed_file_refuses (name : string) :
  allowed_file name = false ↔ ¬ has_allowed_extension name.
Proof.
  rewrite <- allowed_file_spec. destruct (allowed_file name).
  - split; [discriminate|]. intros H. destruct H. reflexivity.
  - split; [discriminate|reflexivity].
Qed.

(** * Reading numeric form inputs *)

Lemma float_of_str_empty : float_of_str "" = None.
Proof. reflexivity. Qed.

Lemma coerced_not_rejected (d : Z) (input : option string) (v : pyfloat) :
  coerced d input v -> ¬ rejected input.
Proof.
  intros Hc (text & Hin & Hne & Hnone). destruct Hc; try congruence.
Qed.

Lemma coerced_or_rejected (d : Z) (input : option string) :
  (∃ v, coerced d input v) ∨ rejected input.
Proof.
  destruct input as [text|]; [|left; eexists; constructor].
  destruct (float_of_str text) as [x|] eqn:E.
  - left. exists x. constructor. exact E.
  - destruct (decide (text = "")) as [->|Hne].
    + left. eexists. apply coerced_empty.
    + right. exists text. auto.
Qed.

Lemma coerced_functional (d : Z) (input : option string) (v w : pyfloat) :
  coerced d input v -> coerced d input w -> v = w.
Proof.
  intros Hv Hw. destruct Hv; inversion Hw; subst; try congruence;
    rewrite float_of_str_empty in *; discriminate.
Qed.

(** [float(request.form.get(key, d) or d)] against the reading of the
    input: a value exactly when the input coerces to it, [ValueError]
    exactly when the input is rejected; the database is not touched. *)
Lemma form_float_coerced (req : request) (key : string) (d : Z) (s : state)
  (v : pyfloat) :
  coerced d (assoc key (form req)) v -> form_float req key d s = (Ok v, s).
Proof.
  unfold form_float, form_get, lift. intros H.
  destruct H as [| |text x Hx].
  - unfold py_or. destruct (pyval_truthy (VInt d)); reflexivity.
  - reflexivity.
  - unfold py_or, pyval_truthy.
    destruct (decide (text = "")) as [->|Hne].
    + rewrite float_of_str_empty in Hx. discriminate.
    + rewrite bool_decide_eq_false_2 by exact Hne. cbn [negb py_float].
      rewrite Hx. reflexivity.
Qed.

Lemma form_float_rejected (req : request) (key : string) (d : Z) (s : state) :
  rejected (assoc key (form req)) ->
  form_float req key d s = (Raise ValueError, s).
Proof.
  unfold form_float, form_get, lift. intros (text & -> & Hne & Hnone).
  unfold py_or, pyval_truthy.
  rewrite bool_decide_eq_false_2 by exact Hne. cbn [negb py_float].
  rewrite Hnone. reflexivity.
Qed.

Lemma form_float_cases (req : request) (key : string) (d : Z) (s : state) :
  (∃ v, coerced d (assoc key (form req)) v
        ∧ form_float req key d s = (Ok v, s))
  ∨ (rejected (assoc key (form req))
     ∧ form_float req key d s = (Raise ValueError, s)).
Proof.
  destruct (coerced_or_rejected d (assoc key (form req))) as [[v Hv]|Hr].
  - left. exists v. split; [exact Hv|]. apply form_float_coerced. exact Hv.
  - right. split; [exact Hr|]. apply form_float_rejected. exact Hr.
Qed.

(** * The rows [add_meal] builds *)

Lemma meal_of_form_cases (e : env) (req : request) (u : User.t)
  (filename : option string) (s : state) :
  (∃ v, Forall2 (fun k x => coerced 0 (assoc k (form req)) x) meal_inputs v
        ∧ meal_of_form e req u filename s
          = (Ok (manual_meal e req u filename v), s))
  ∨ (Exists (fun k => rejected (assoc k (form req))) meal_inputs
     ∧ meal_of_form e req u filename s = (Raise ValueError, s)).
Proof.
  unfold meal_of_form, bind, meal_inputs.
  destruct (form_float_cases req "calories" 0 s) as [(v1 & H1 & ->)|(Hr & ->)];
    [|right; split; [|reflexivity]; repeat (first [left; exact Hr | right])].
  destruct (form_float_cases req "protein" 0 s) as [(v2 & H2 & ->)|(Hr & ->)];
    [|right; split; [|reflexivity]; repeat (first [left; exact Hr | right])].
  destruct (form_float_cases req "carbs" 0 s) as [(v3 & H3 & ->)|(Hr & ->)];
    [|right; split; [|reflexivity]; repeat (first [left; exact Hr | right])].
  destruct (form_float_cases req "fat" 0 s) as [(v4 & H4 & ->)|(Hr & ->)];
    [|right; split; [|reflexivity]; repeat (first [left; exact Hr | right])].
  destruct (form_float_cases req "fiber" 0 s) as [(v5 & H5 & ->)|(Hr & ->)];
    [|right; split; [|reflexivity]; repeat (first [left; exact Hr | right])].
  destruct (form_float_cases req "sugar" 0 s) as [(v6 & H6 & ->)|(Hr & ->)];
    [|right; split; [|reflexivity]; repeat (first [left; exact Hr | right])].
  destruct (form_float_cases req "sodium" 0 s) as [(v7 & H7 & ->)|(Hr & ->)];
    [|right; split; [|reflexivity]; repeat (first [left; exact Hr | right])].
  left. exists [v1; v2; v3; v4; v5; v6; v7]. split; [|reflexivity].
  repeat constructor; assumption.
Qed.

Lemma bind_ret {A B : Type} (a : A) (k : A -> M B) (s : state) :
  bind (ret a) k s = k a s.
Proof. reflexivity. Qed.

Lemma bind_modify_ret {A B : Type} (f : state -> state) (a : A)
  (k : A -> M B) (s : state) :
  bind (bind (modify f) (fun _ => ret a)) k s = k a (f s).
Proof. reflexivity. Qed.

(** The manual branch from the built row on: either the seven inputs are
    read and the row is appended, or one of them is rejected and nothing is
    stored. *)
Lemma store_manual_meal (e : env) (req : request) (u : User.t)
  (fn : option string) (s s1 : state) :
  meal_table s1 = meal_table s ->
  (∃ v, Forall2 (fun k x => coerced 0 (assoc k (form req)) x) meal_inputs v
        ∧ bind (meal_of_form e req u fn)
            (fun meal =>
               bind (add_commit_meal e meal)
                 (fun meal =>
                    if bool_decide
                         (assoc "Accept" (headers req) = Some "application/json")
                    then ret (Jsonify (Meal.id meal) (Meal.name meal))
                    else ret (Redirect "dashboard"))) s1
          = (Ok (added req (manual_meal e req u fn v
                              (next_id (map Meal.id (meal_table s)))
                              (utcnow e))),
             with_meals
               (fun t => t ++ [manual_meal e req u fn v
                                 (next_id (map Meal.id (meal_table s)))
                                 (utcnow e)])
               (Insert TMeal (Meal.id (manual_meal e req u fn v
                                         (next_id (map Meal.id (meal_table s)))
                                         (utcnow e)))) s1))
  ∨ (Exists (fun k => rejected (assoc k (form req))) meal_inputs
     ∧ bind (meal_of_form e req u fn)
         (fun meal =>
            bind (add_commit_meal e meal)
              (fun meal =>
                 if bool_decide
                      (assoc "Accept" (headers req) = Some "application/json")
                 then ret (Jsonify (Meal.id meal) (Meal.name meal))
                 else ret (Redirect "dashboard"))) s1
       = (Raise ValueError, s1)).
Proof.
  intros Hs1. unfold bind.
  destruct (meal_of_form_cases e req u fn s1) as [(v & Hv & ->)|(Hr & ->)].
  - left. exists v. split; [exact Hv|].
    unfold add_commit_meal, bind, get_state, modify, ret, added.
    rewrite Hs1.
    destruct (bool_decide (assoc "Accept" (headers req)
                           = Some "application/json")); reflexivity.
  - right. split; [exact Hr|reflexivity].
Qed.

Section Ingestion.

Variable secure_filename : string -> string.
Variable json_loads : string -> option json.

Lemma add_meal_manual_run (e : env) (req : request) (s : state) (u : User.t) :
  current_user s req = Some u -> method req = POST ->
  manual_entry json_loads e req ->
  let fn := stored_name secure_filename e req in
  let s1 := after_upload secure_filename e req s in
  (∃ v, Forall2 (fun k x => coerced 0 (assoc k (form req)) x) meal_inputs v
        ∧ let m := manual_meal e req u fn v
                     (next_id (map Meal.id (meal_table s))) (utcnow e) in
          add_meal secure_filename json_loads e req s
          = (Ok (added req m),
             with_meals (fun t => t ++ [m]) (Insert TMeal (Meal.id m)) s1))
  ∨ (Exists (fun k => rejected (assoc k (form req))) meal_inputs
     ∧ add_meal secure_filename json_loads e req s = (Raise ValueError, s1)).
Proof.
  intros Hu Hpost Hmanual. cbv zeta.
  unfold add_meal. rewrite (login_required_user _ _ _ _ Hu).
  unfold add_meal_view. rewrite Hpost.
  unfold after_upload, stored_name, manual_entry in *.
  destruct (assoc "image" (files req)) as [img|].
  - destruct (file_truthy img) eqn:Ef; cbn [andb];
      [destruct (allowed_file (filename img)) eqn:Ea|].
    + specialize (Hmanual img eq_refl Ef Ea).
      rewrite bind_modify_ret. cbn [fst snd].
      destruct (analyze_meal_image json_loads (api_reply e)) as [a|].
      * rewrite Hmanual. apply store_manual_meal. reflexivity.
      * apply store_manual_meal. reflexivity.
    + rewrite bind_ret. apply store_manual_meal. reflexivity.
    + rewrite bind_ret. apply store_manual_meal. reflexivity.
  - rewrite bind_ret. apply store_manual_meal. reflexivity.
Qed.

Lemma add_meal_anonymous (e : env) (req : request) (s : state) :
  current_user s req = None ->
  add_meal secure_filename json_loads e req s = (Ok (Redirect "login"), s).
Proof. intros H. unfold add_meal. apply login_required_anonymous. exact H. Qed.

Lemma add_meal_get (e : env) (req : request) (s : state) (u : User.t) :
  current_user s req = Some u -> method req = GET ->
  add_meal secure_filename json_loads e req s
  = (Ok (RenderTemplate "add_meal.html"), s).
Proof.
  intros Hu Hget. unfold add_meal. rewrite (login_required_user _ _ _ _ Hu).
  unfold add_meal_view. rewrite Hget. reflexivity.
Qed.

Lemma not_appended {A : Type} (l : list A) (x : A) : l ≠ l ++ [x].
Proof.
  intros H. apply (f_equal length) in H. rewrite length_app in H.
  simpl in H. lia.
Qed.

Lemma float_column_cases (v : json) :
  (∃ x, float_column v = Ok x) ∨ float_column v = Raise ColumnTypeMismatch.
Proof. destruct v; simpl; eauto. Qed.

Lemma text_column_cases (v : json) :
  (∃ x, text_column v = Ok x) ∨ text_column v = Raise ColumnTypeMismatch.
Proof. destruct v; simpl; eauto. Qed.

(** The classifier branch either builds a row dated today or stops with an
    exception; it does not touch the database. *)
Lemma meal_of_analysis_cases (e : env) (req : request) (u : User.t)
  (fn : option string) (kv : dict json) (s : state) :
  (∃ mk, meal_of_analysis e req u fn kv s = (Ok mk, s)
         ∧ ∀ pk t, Meal.date (mk pk t) = today e ∧ Meal.id (mk pk t) = pk)
  ∨ (∃ ex, meal_of_analysis e req u fn kv s = (Raise ex, s)).
Proof.
  unfold meal_of_analysis, bind, lift, ret.
  repeat match goal with
         | |- context [text_column ?v] =>
             destruct (text_column_cases v) as [[? ->] | ->];
             [|right; eexists; reflexivity]
         | |- context [float_column ?v] =>
             destruct (float_column_cases v) as [[? ->] | ->];
             [|right; eexists; reflexivity]
         end.
  left. eexists. split; [reflexivity|]. intros pk t. split; reflexivity.
Qed.

Lemma meal_of_form_builds (e : env) (req : request) (u : User.t)
  (fn : option string) (s : state) :
  builds_today e (meal_of_form e req u fn) s.
Proof.
  destruct (meal_of_form_cases e req u fn s) as [(v & _ & H)|(_ & H)].
  - left. eexists. split; [exact H|]. reflexivity.
  - right. eexists. exact H.
Qed.

Lemma meal_of_analysis_builds (e : env) (req : request) (u : User.t)
  (fn : option string) (kv : dict json) (s : state) :
  builds_today e (meal_of_analysis e req u fn kv) s.
Proof.
  destruct (meal_of_analysis_cases e req u fn kv s) as [(mk & H & Hd)|[ex H]].
  - left. exists mk. split; [exact H|]. intros pk t. apply Hd.
  - right. exists ex. exact H.
Qed.

Lemma store_built_meal (e : env) (req : request) (b : M (Z -> Z -> Meal.t))
  (s s1 : state) :
  meal_table s1 = meal_table s -> builds_today e b s1 ->
  let s' :=
    snd (bind b
           (fun meal =>
              bind (add_commit_meal e meal)
                (fun meal =>
                   if bool_decide
                        (assoc "Accept" (headers req) = Some "application/json")
                   then ret (Jsonify (Meal.id meal) (Meal.name meal))
                   else ret (Redirect "dashboard"))) s1) in
  meal_table s' = meal_table s
  ∨ ∃ m, meal_table s' = meal_table s ++ [m] ∧ Meal.date m = today e.
Proof.
  intros Hs1 [(mk & Hb & Hd)|(ex & Hb)]; cbv zeta; unfold bind; rewrite Hb.
  - right. unfold add_commit_meal, bind, get_state, modify, ret.
    destruct (bool_decide (assoc "Accept" (headers req)
                           = Some "application/json"));
      cbn [snd with_meals meal_table]; rewrite Hs1;
      (eexists; split; [reflexivity|apply Hd]).
  - left. exact Hs1.
Qed.

(** C8. Whatever the request, the uploaded file and the classifier's
    answer: [add_meal] either leaves the table of meals as it was or
    appends exactly one row, and that row is dated with the server's
    current day. *)
Theorem created_meal_is_dated_today (e : env) (req : request) (s : state) :
  let s' := snd (add_meal secure_filename json_loads e req s) in
  meal_table s' = meal_table s
  ∨ ∃ m, meal_table s' = meal_table s ++ [m] ∧ Meal.date m = today e.
Proof.
  cbv zeta. destruct (current_user s req) as [u|] eqn:Hu;
    [|rewrite (add_meal_anonymous _ _ _ Hu); left; reflexivity].
  destruct (method req) eqn:Hm;
    [rewrite (add_meal_get _ _ _ _ Hu Hm); left; reflexivity|].
  unfold add_meal. rewrite (login_required_user _ _ _ _ Hu).
  unfold add_meal_view. rewrite Hm.
  destruct (assoc "image" (files req)) as [img|].
  - destruct (file_truthy img && allowed_file (filename img)).
    + rewrite bind_modify_ret. cbn [fst snd].
      destruct (analyze_meal_image json_loads (api_reply e)) as [a|].
      * destruct (json_truthy a);
          [destruct a|];
          apply store_built_meal;
          first [ reflexivity
                | apply meal_of_form_builds
                | apply meal_of_analysis_builds
                | right; eexists; reflexivity ].
      * apply store_built_meal;
          [reflexivity|apply meal_of_form_builds].
    + rewrite bind_ret. apply store_built_meal;
        [reflexivity|apply meal_of_form_builds].
  - rewrite bind_ret. apply store_built_meal;
      [reflexivity|apply meal_of_form_builds].
Qed.

(** C10. A row stored by the manual-entry branch of [add_meal] has
    saturated fat, cholesterol, potassium, vitamin A, vitamin C, calcium and
    iron equal to zero. *)
Theorem manual_meal_other_nutrients_zero
  (e : env) (req : request) (s : state) (m : Meal.t) :
  manual_entry json_loads e req ->
  meal_table (snd (add_meal secure_filename json_loads e req s))
  = meal_table s ++ [m] ->
  Meal.saturated_fat m = of_int 0 ∧ Meal.cholesterol m = of_int 0
  ∧ Meal.potassium m = of_int 0 ∧ Meal.vitamin_a m = of_int 0
  ∧ Meal.vitamin_c m = of_int 0 ∧ Meal.calcium m = of_int 0
  ∧ Meal.iron m = of_int 0.
Proof.
  intros Hmanual Hm.
  destruct (current_user s req) as [u|] eqn:Hu;
    [|rewrite (add_meal_anonymous _ _ _ Hu) in Hm;
      destruct (not_appended _ _ Hm)].
  destruct (method req) eqn:Hmeth;
    [rewrite (add_meal_get _ _ _ _ Hu Hmeth) in Hm;
     destruct (not_appended _ _ Hm)|].
  destruct (add_meal_manual_run e req s u Hu Hmeth Hmanual)
    as [(v & _ & Hrun)|(_ & Hrun)]; rewrite Hrun in Hm;
    cbn [snd with_meals meal_table] in Hm.
  - replace (meal_table (after_upload secure_filename e req s)) with (meal_table s) in Hm
      by (unfold after_upload; destruct (stored_name secure_filename e req); reflexivity).
    apply app_inv_head in Hm. injection Hm as <-.
    repeat split; reflexivity.
  - replace (meal_table (after_upload secure_filename e req s)) with (meal_table s) in Hm
      by (unfold after_upload; destruct (stored_name secure_filename e req); reflexivity).
    destruct (not_appended _ _ Hm).
Qed.

Lemma allowed_file_truthy (img : FileStorage) :
  allowed_file (filename img) = true -> file_truthy img = true.
Proof.
  unfold file_truthy. intros H.
  destruct (decide (filename img = "")) as [Heq|Hne].
  - rewrite Heq in H. discriminate.
  - rewrite bool_decide_eq_false_2 by exact Hne. reflexivity.
Qed.

Lemma none_rejected (form : list (string * string)) (keys : list string) :
  Forall (fun k => ¬ rejected (assoc k form)) keys ->
  ¬ Exists (fun k => rejected (assoc k form)) keys.
Proof.
  intros Hf Hex. apply Exists_exists in Hex as (k & Hk & Hr).
  rewrite Forall_forall in Hf. exact (Hf k Hk Hr).
Qed.

Lemma after_upload_meals (e : env) (req : request) (s : state) :
  meal_table (after_upload secure_filename e req s) = meal_table s.
Proof. unfold after_upload. destruct (stored_name secure_filename e req); reflexivity. Qed.

Lemma manual_meal_from_form (e : env) (req : request) (u : User.t)
  (fn : option string) (v : list pyfloat) (pk t : Z) :
  Forall2 (fun k x => coerced 0 (assoc k (form req)) x) meal_inputs v ->
  from_form req (manual_meal e req u fn v pk t).
Proof.
  intros H. unfold meal_inputs in H.
  repeat match goal with
         | H : Forall2 _ (_ :: _) _ |- _ => inversion H; subst; clear H
         | H : Forall2 _ [] _ |- _ => inversion H; subst; clear H
         end.
  unfold from_form, manual_meal. cbn [Meal.name Meal.description Meal.calories
    Meal.protein Meal.carbs Meal.fat Meal.fiber Meal.sugar Meal.sodium nth].
  repeat split; assumption.
Qed.

(** A manual-entry request whose seven nutrient inputs are all readable
    stores a row built from the form. *)
Lemma add_meal_manual_stores (e : env) (req : request) (s : state) (u : User.t) :
  current_user s req = Some u -> method req = POST ->
  manual_entry json_loads e req ->
  Forall (fun k => ¬ rejected (assoc k (form req))) meal_inputs ->
  ∃ m, add_meal secure_filename json_loads e req s
       = (Ok (added req m),
          with_meals (fun t => t ++ [m]) (Insert TMeal (Meal.id m))
                     (after_upload secure_filename e req s))
       ∧ from_form req m
       ∧ Meal.image_path m = stored_name secure_filename e req
       ∧ Meal.user_id m = User.id u.
Proof.
  intros Hu Hpost Hmanual Hok.
  destruct (add_meal_manual_run e req s u Hu Hpost Hmanual)
    as [(v & Hv & Hrun)|(Hr & _)];
    [|destruct (none_rejected _ _ Hok Hr)].
  eexists. split; [exact Hrun|]. split; [|split; reflexivity].
  apply manual_meal_from_form. exact Hv.
Qed.


Lemma add_meal_disallowed_ignores_reply (e : env) (req : request) (s : state)
  (img : FileStorage) (reply : option string) :
  assoc "image" (files req) = Some img ->
  allowed_file (filename img) = false ->
  add_meal secure_filename json_loads
           (mkEnv (today e) (utcnow e) (uuid4_hex e) reply) req s
  = add_meal secure_filename json_loads e req s.
Proof.
  intros Himg Hno. unfold add_meal, login_required.
  destruct (current_user s req) as [u|]; [|reflexivity].
  unfold add_meal_view. destruct (method req); [reflexivity|].
  rewrite Himg, Hno, andb_false_r. reflexivity.
Qed.


End Ingestion.

(** * The settings view *)

Lemma settings_post_run (req : request) (s : state) (u : User.t) :
  method req = POST ->
  ∃ l s1,
    get_limits u s = (Ok l, s1)
    ∧ limits_of (User.id u) s1 = Some l
    ∧ ((∃ v, reads_limits req v
             ∧ settings_view req u s
               = (Ok (Redirect "settings"),
                  with_limits
                    (map (fun x => if decide (DailyLimit.id x = DailyLimit.id l)
                                   then limits_from l v else x))
                    (if decide (limits_from l v = l) then []
                     else [Update TDailyLimit (DailyLimit.id l)]) s1))
       ∨ (rejects_limits req
          ∧ settings_view req u s = (Raise ValueError, s1))).
Proof.
  intros Hpost.
  destruct (get_limits_total u s) as (l & s1 & Hl & Hfound & _).
  exists l, s1. split; [exact Hl|]. split; [exact Hfound|].
  unfold settings_view, bind, reads_limits, rejects_limits, limit_inputs.
  rewrite Hl, Hpost.
  destruct (form_float_cases req "calories" 2000 s1)
    as [(v0 & H0 & ->)|(Hr & ->)];
    [|right; split; [|reflexivity]; repeat (first [left; exact Hr | right])].
  destruct (form_float_cases req "protein" 50 s1)
    as [(v1 & H1 & ->)|(Hr & ->)];
    [|right; split; [|reflexivity]; repeat (first [left; exact Hr | right])].
  destruct (form_float_cases req "carbs" 300 s1)
    as [(v2 & H2 & ->)|(Hr & ->)];
    [|right; split; [|reflexivity]; repeat (first [left; exact Hr | right])].
  destruct (form_float_cases req "fat" 65 s1)
    as [(v3 & H3 & ->)|(Hr & ->)];
    [|right; split; [|reflexivity]; repeat (first [left; exact Hr | right])].
  destruct (form_float_cases req "fiber" 25 s1)
    as [(v4 & H4 & ->)|(Hr & ->)];
    [|right; split; [|reflexivity]; repeat (first [left; exact Hr | right])].
  destruct (form_float_cases req "sugar" 50 s1)
    as [(v5 & H5 & ->)|(Hr & ->)];
    [|right; split; [|reflexivity]; repeat (first [left; exact Hr | right])].
  destruct (form_float_cases req "sodium" 2300 s1)
    as [(v6 & H6 & ->)|(Hr & ->)];
    [|right; split; [|reflexivity]; repeat (first [left; exact Hr | right])].
  destruct (form_float_cases req "saturated_fat" 20 s1)
    as [(v7 & H7 & ->)|(Hr & ->)];
    [|right; split; [|reflexivity]; repeat (first [left; exact Hr | right])].
  destruct (form_float_cases req "cholesterol" 300 s1)
    as [(v8 & H8 & ->)|(Hr & ->)];
    [|right; split; [|reflexivity]; repeat (first [left; exact Hr | right])].
  destruct (form_float_cases req "potassium" 3500 s1)
    as [(v9 & H9 & ->)|(Hr & ->)];
    [|right; split; [|reflexivity]; repeat (first [left; exact Hr | right])].
  left. exists [v0; v1; v2; v3; v4; v5; v6; v7; v8; v9].
  split; [|reflexivity]. repeat constructor; assumption.
Qed.

Lemma limits_of_owner (uid : Z) (s : state) (l : DailyLimit.t) :
  limits_of uid s = Some l -> DailyLimit.user_id l = uid.
Proof.
  unfold limits_of. intros H.
  destruct (filter _ (daily_limit_table s)) as [|x r] eqn:E; [discriminate|].
  injection H as ->.
  assert (Hin : l ∈ filter (fun l => DailyLimit.user_id l = uid)
                           (daily_limit_table s)) by (rewrite E; left).
  apply list_elem_of_filter in Hin as [Hl _]. exact Hl.
Qed.

(** After the row resolved for a user is overwritten, resolving again gives
    the new row. *)
Lemma limits_of_replaced (uid : Z) (s : state) (l l' : DailyLimit.t)
  (w : list write) :
  limits_of uid s = Some l -> DailyLimit.user_id l' = uid ->
  limits_of uid
    (with_limits (map (fun x => if decide (DailyLimit.id x = DailyLimit.id l)
                                then l' else x)) w s) = Some l'.
Proof.
  unfold limits_of. cbn [with_limits daily_limit_table]. intros Hl Hown.
  induction (daily_limit_table s) as [|x t IH]; [discriminate|].
  rewrite filter_cons in Hl. cbn [map]. rewrite filter_cons.
  destruct (decide (DailyLimit.user_id x = uid)) as [Hx|Hx].
  - injection Hl as ->.
    destruct (decide (DailyLimit.id l = DailyLimit.id l)); [|congruence].
    destruct (decide (DailyLimit.user_id l' = uid)); [reflexivity|congruence].
  - destruct (decide (DailyLimit.id x = DailyLimit.id l)).
    + destruct (decide (DailyLimit.user_id l' = uid)); [reflexivity|congruence].
    + destruct (decide (DailyLimit.user_id x = uid)); [congruence|].
      apply IH. exact Hl.
Qed.

Lemma ceilings_limits_from (l : DailyLimit.t) (v : list pyfloat) :
  length v = 10%nat -> DailyLimit.ceilings (limits_from l v) = v.
Proof.
  intros H.
  do 10 (destruct v as [|? v]; [discriminate|]).
  destruct v; [reflexivity|discriminate].
Qed.


(** * Goal creation *)

Lemma add_goal_rejected (strptime_date : string -> option Z) (e : env)
  (req : request) (s : state) (u : User.t) :
  current_user s req = Some u ->
  rejected (assoc "target_value" (form req)) ->
  add_goal strptime_date e req s = (Raise ValueError, s).
Proof.
  intros Hu Hr. unfold add_goal. rewrite (login_required_user _ _ _ _ Hu).
  unfold add_goal_view, bind. rewrite (form_float_rejected _ _ _ _ Hr).
  reflexivity.
Qed.

Lemma add_goal_stores (strptime_date : string -> option Z) (e : env)
  (req : request) (s : state) (u : User.t) (v : pyfloat) :
  current_user s req = Some u ->
  coerced 0 (assoc "target_value" (form req)) v ->
  (∀ text, assoc "end_date" (form req) = Some text -> text ≠ "" ->
           is_Some (strptime_date text)) ->
  ∃ g s', add_goal strptime_date e req s = (Ok (Redirect "goals"), s')
          ∧ goal_table s' = goal_table s ++ [g]
          ∧ Goal.target_value g = v
          ∧ Goal.user_id g = User.id u
          ∧ Goal.completed g = false.
Proof.
  intros Hu Hv Hdate. unfold add_goal.
  rewrite (login_required_user _ _ _ _ Hu).
  unfold add_goal_view, bind. rewrite (form_float_coerced _ _ _ _ _ Hv).
  destruct (assoc "end_date" (form req)) as [text|].
  - destruct (decide (text = "")) as [->|Hne].
    + eexists _, _. split; [reflexivity|]. repeat split; reflexivity.
    + rewrite bool_decide_eq_false_2 by exact Hne. cbn [negb].
      destruct (Hdate text eq_refl Hne) as [d ->].
      eexists _, _. split; [reflexivity|]. repeat split; reflexivity.
  - eexists _, _. split; [reflexivity|]. repeat split; reflexivity.
Qed.

(** * C2: numeric form inputs *)


(** * C7: the shared profile *)

Lemma token_filter_unique (users : list User.t) (owner : User.t)
  (token : string) :
  NoDup (omap User.share_token users) -> owner ∈ users ->
  User.share_token owner = Some token ->
  filter (fun u => User.share_token u = Some token) users = [owner].
Proof.
  induction users as [|y users IH]; intros Hnd Hin Htok.
  - apply elem_of_nil in Hin. contradiction.
  - rewrite filter_cons. cbn [omap list_omap] in Hnd.
    destruct (decide (User.share_token y = Some token)) as [Hy|Hy].
    + rewrite Hy in Hnd. apply NoDup_cons in Hnd as [Hfresh _].
      assert (Hnone : ∀ z, z ∈ users -> User.share_token z ≠ Some token).
      { intros z Hz Hzt. apply Hfresh. apply list_elem_of_omap.
        exists z. split; assumption. }
      apply elem_of_cons in Hin as [->|Hin];
        [|destruct (Hnone owner Hin Htok)].
      f_equal. clear -Hnone.
      induction users as [|z users IH]; [reflexivity|].
      rewrite filter_cons.
      destruct (decide (User.share_token z = Some token)) as [Hz|_].
      * destruct (Hnone z); [left|exact Hz].
      * apply IH. intros w Hw. apply Hnone. right. exact Hw.
    + apply elem_of_cons in Hin as [->|Hin]; [contradiction|].
      apply IH; [|exact Hin|exact Htok].
      destruct (User.share_token y); [|exact Hnd].
      apply NoDup_cons in Hnd as [_ Hnd]. exact Hnd.
Qed.

Lemma shared_profile_unknown (e : env) (token : string) (s : state) :
  (∀ u, u ∈ user_table s -> User.share_token u ≠ Some token) ->
  shared_profile e token s = (Abort 404, s).
Proof.
  intros H. unfold shared_profile, bind, get_state.
  assert (E : filter (fun u => User.share_token u = Some token) (user_table s)
              = []).
  { induction (user_table s) as [|x t IH]; [reflexivity|].
    rewrite filter_cons.
    destruct (decide (User.share_token x = Some token)) as [Hx|_].
    - destruct (H x); [left|exact Hx].
    - apply IH. intros u Hu. apply H. right. exact Hu. }
  rewrite E. reflexivity.
Qed.


(** * Running the views on the small database *)

Lemma not_rejected (input : option string) :
  rejectedb input = false -> ¬ rejected input.
Proof.
  intros Hb (text & -> & Hne & Hnone). unfold rejectedb in Hb.
  rewrite Hnone, bool_decide_eq_false_2 in Hb by exact Hne. discriminate.
Qed.

Lemma is_rejected (input : option string) :
  rejectedb input = true -> rejected input.
Proof.
  destruct input as [text|]; [|discriminate]. unfold rejectedb.
  intros Hb. apply andb_prop in Hb as [Hne Hnone]. exists text.
  split; [reflexivity|]. split.
  - intros ->. discriminate.
  - destruct (float_of_str text); [discriminate|reflexivity].
Qed.

Example manual_apple_is_stored :
  add_meal same_name no_json demo_env
           (as_anna POST [("name", "Apfel"); ("calories", "95")] []) demo
  = (Ok (Redirect "dashboard"),
     with_meals (fun t => t ++ [stored_apple]) (Insert TMeal 5) demo).
Proof. reflexivity. Qed.

(** A classifier answer wrapped in a code fence and decoded to an object:
    the row takes its name and calories from the object, the defaults
    elsewhere, and today's date. *)
Example classified_salad_is_stored :
  let r := add_meal same_name salad_json
             (mkEnv 100 9 "cd" (Some "```json
{}
```"))
             (as_anna POST [("name", "ignored")] [("image", mkFile "s.jpg")])
             demo in
  fst r = Ok (Redirect "dashboard")
  ∧ meal_table (snd r)
    = meal_table demo
      ++ [plain_meal 5 1 "Salat" (Some "cd_s.jpg") 100 9 120 0].
Proof. split; reflexivity. Qed.

(** A true value that is not an object has no [get]. *)
Example classified_array_raises :
  fst (add_meal same_name array_json (mkEnv 100 9 "cd" (Some "[1]"))
         (as_anna POST [] [("image", mkFile "s.jpg")]) demo)
  = Raise AttributeError.
Proof. reflexivity. Qed.

Example fence_without_newline_is_a_failure :
  analyze_meal_image salad_json (Some "```{}```") = None.
Proof. reflexivity. Qed.

Example dashboard_totals_after_delete :
  let r := delete_meal 1 (as_anna POST [] []) demo in
  fst r = Ok (Redirect "dashboard")
  ∧ calories_shown (fst (dashboard demo_env (as_anna GET [] []) demo))
    = Some (of_int 345)
  ∧ calories_shown (fst (dashboard demo_env (as_anna GET [] []) (snd r)))
    = Some (of_int 250).
Proof. repeat split; vm_compute; reflexivity. Qed.

(** * Witnesses and counterexamples on the small database *)


Lemma demo_goal_keys : NoDup (map Goal.id (goal_table demo)).
Proof. apply (bool_decide_unpack _). vm_compute. exact I. Defined.

Lemma demo_meal_keys : NoDup (map Meal.id (meal_table demo)).
Proof. apply (bool_decide_unpack _). vm_compute. exact I. Defined.

Lemma demo_tokens : NoDup (omap User.share_token (user_table demo)).
Proof. apply (bool_decide_unpack _). vm_compute. exact I. Defined.



Lemma manual_meal_other_nutrients_zero_witness :
  manual_entry no_json demo_env apple_request
  ∧ meal_table (snd (add_meal same_name no_json demo_env apple_request demo))
    = meal_table demo ++ [stored_apple]
  ∧ Meal.saturated_fat stored_apple = of_int 0
  ∧ Meal.iron stored_apple = of_int 0.
Proof.
  assert (Hmanual : manual_entry no_json demo_env apple_request).
  { intros img Himg. discriminate Himg. }
  split; [exact Hmanual|]. split; [reflexivity|].
  destruct (manual_meal_other_nutrients_zero same_name no_json demo_env
              apple_request demo stored_apple Hmanual eq_refl)
    as (Hsat & _ & _ & _ & _ & _ & Hiron).
  split; [exact Hsat|exact Hiron].
Defined.

Lemma readable_meal_inputs (form : list (string * string)) :
  forallb (fun k => negb (rejectedb (assoc k form))) meal_inputs = true ->
  Forall (fun k => ¬ rejected (assoc k form)) meal_inputs.
Proof.
  intros H. apply Forall_forall. intros k Hk. apply not_rejected.
  rewrite forallb_forall in H. apply list_elem_of_In in Hk.
  apply negb_true_iff. exact (H k Hk).
Qed.

Lemma readable_limit_inputs (form : list (string * string)) :
  forallb (fun kd => negb (rejectedb (assoc (fst kd) form))) limit_inputs
  = true ->
  Forall (fun kd => ¬ rejected (assoc (fst kd) form)) limit_inputs.
Proof.
  intros H. apply Forall_forall. intros kd Hkd. apply not_rejected.
  rewrite forallb_forall in H. apply list_elem_of_In in Hkd.
  apply negb_true_iff. exact (H kd Hkd).
Qed.





(** ** Inputs on which the claims as written fail *)





(** * Further properties of the views *)

(** ** The weekly plan and the week chart *)

Lemma weekday_of_week (t i : Z) :
  0 <= i < 7 -> weekday (t - weekday t + i) = i.
Proof. unfold weekday. intros Hi. Z.div_mod_to_equations. lia. Qed.

Lemma weekday_range (t : Z) : 0 <= weekday t < 7.
Proof. unfold weekday. apply Z.mod_pos_bound. lia. Qed.

Lemma ordered_meals_member (uid d : Z) (s : state) (m : Meal.t) :
  m ∈ order_by_created_at (meals_filter_by uid d s) ->
  m ∈ meal_table s ∧ Meal.user_id m = uid ∧ Meal.date m = d.
Proof.
  rewrite (order_by_created_at_perm _). unfold meals_filter_by.
  rewrite list_elem_of_filter. tauto.
Qed.



(** ** What [add_meal] and [delete_meal] do to the tables and the totals *)

Lemma next_id_fresh (ids : list Z) (x : Z) : x ∈ ids -> x < next_id ids.
Proof.
  unfold next_id. induction ids as [|y ids IH]; intros Hx.
  - apply elem_of_nil in Hx. contradiction.
  - cbn [foldr]. apply elem_of_cons in Hx as [->|Hx]; [lia|].
    specialize (IH Hx). lia.
Qed.

Lemma next_id_not_in {A : Type} (pk_of : A -> Z) (rows : list A) (r : A) :
  r ∈ rows -> pk_of r ≠ next_id (map pk_of rows).
Proof.
  intros Hr Heq.
  pose proof (next_id_fresh (map pk_of rows) (pk_of r)
                (list_elem_of_fmap_2 pk_of _ _ Hr)).
  lia.
Qed.

Lemma current_user_same_users (s s' : state) (req : request) :
  user_table s' = user_table s -> current_user s' req = current_user s req.
Proof.
  intros H. unfold current_user, load_user. rewrite H. reflexivity.
Qed.

Lemma current_user_member (s : state) (req : request) (u : User.t) :
  current_user s req = Some u -> u ∈ user_table s.
Proof.
  unfold current_user, load_user.
  destruct (session_user_id req) as [uid|]; [|discriminate].
  intros H.
  destruct (filter (fun u => User.id u = uid) (user_table s)) as [|x r] eqn:E;
    [discriminate|].
  injection H as ->.
  assert (Hin : u ∈ filter (fun u => User.id u = uid) (user_table s))
    by (rewrite E; left).
  apply list_elem_of_filter in Hin as [_ Hin]. exact Hin.
Qed.

Section IngestionEffects.

Variable secure_filename : string -> string.
Variable json_loads : string -> option json.

Lemma meal_of_form_builds_for (e : env) (req : request) (u : User.t)
  (fn : option string) (s : state) :
  builds_for e u (meal_of_form e req u fn) s.
Proof.
  destruct (meal_of_form_cases e req u fn s) as [(v & _ & H)|(_ & H)].
  - left. eexists. split; [exact H|]. intros pk t. repeat split.
  - right. eexists. exact H.
Qed.

Lemma meal_of_analysis_builds_for (e : env) (req : request) (u : User.t)
  (fn : option string) (kv : dict json) (s : state) :
  builds_for e u (meal_of_analysis e req u fn kv) s.
Proof.
  unfold builds_for, meal_of_analysis, bind, lift, ret.
  repeat match goal with
         | |- context [text_column ?v] =>
             destruct (text_column_cases v) as [[? ->] | ->];
             [|right; eexists; reflexivity]
         | |- context [float_column ?v] =>
             destruct (float_column_cases v) as [[? ->] | ->];
             [|right; eexists; reflexivity]
         end.
  left. eexists. split; [reflexivity|]. intros pk t. repeat split.
Qed.

Lemma store_built_for (e : env) (req : request) (u : User.t)
  (b : M (Z -> Z -> Meal.t)) (s s1 : state) :
  current_user s req = Some u ->
  user_table s1 = user_table s -> meal_table s1 = meal_table s ->
  goal_table s1 = goal_table s ->
  daily_limit_table s1 = daily_limit_table s ->
  builds_for e u b s1 ->
  meal_effect e req s
    (snd (bind b
            (fun meal =>
               bind (add_commit_meal e meal)
                 (fun meal =>
                    if bool_decide
                         (assoc "Accept" (headers req) = Some "application/json")
                    then ret (Jsonify (Meal.id meal) (Meal.name meal))
                    else ret (Redirect "dashboard"))) s1)).
Proof.
  intros Hu Hus Hms Hgs Hls [(mk & Hb & Hmk)|(ex & Hb)];
    unfold meal_effect, bind; rewrite Hb.
  - unfold add_commit_meal, bind, get_state, modify, ret.
    destruct (bool_decide (assoc "Accept" (headers req)
                           = Some "application/json"));
      cbn [snd with_meals user_table meal_table goal_table daily_limit_table];
      (split; [exact Hus|]); (split; [exact Hgs|]); (split; [exact Hls|]);
      right; eexists u, _; (split; [exact Hu|]); rewrite Hms;
      (split; [reflexivity|]);
      destruct (Hmk (next_id (map Meal.id (meal_table s))) (utcnow e))
        as (H1 & H2 & H3); auto.
  - cbn [snd]. auto.
Qed.

Lemma add_meal_effect (e : env) (req : request) (s : state) :
  meal_effect e req s (snd (add_meal secure_filename json_loads e req s)).
Proof.
  destruct (current_user s req) as [u|] eqn:Hu;
    [|rewrite (add_meal_anonymous _ _ _ _ _ Hu); unfold meal_effect; auto].
  destruct (method req) eqn:Hm;
    [rewrite (add_meal_get _ _ _ _ _ _ Hu Hm); unfold meal_effect; auto|].
  unfold add_meal. rewrite (login_required_user _ _ _ _ Hu).
  unfold add_meal_view. rewrite Hm.
  destruct (assoc "image" (files req)) as [img|].
  - destruct (file_truthy img && allowed_file (filename img)).
    + rewrite bind_modify_ret. cbn [fst snd].
      destruct (analyze_meal_image json_loads (api_reply e)) as [a|].
      * destruct (json_truthy a);
          [destruct a|];
          apply (store_built_for e req u);
          first [ exact Hu | reflexivity
                | apply meal_of_form_builds_for
                | apply meal_of_analysis_builds_for
                | right; eexists; reflexivity ].
      * apply (store_built_for e req u);
          first [ exact Hu | reflexivity | apply meal_of_form_builds_for ].
    + rewrite bind_ret. apply (store_built_for e req u);
        first [ exact Hu | reflexivity | apply meal_of_form_builds_for ].
  - rewrite bind_ret. apply (store_built_for e req u);
      first [ exact Hu | reflexivity | apply meal_of_form_builds_for ].
Qed.

End IngestionEffects.

Lemma nutrient_sum_app (f : Meal.t -> pyfloat) (uid d : Z)
  (rows : list Meal.t) (m : Meal.t) :
  nutrient_sum f uid d (rows ++ [m])
  = if decide (Meal.user_id m = uid ∧ Meal.date m = d)
    then fadd (nutrient_sum f uid d rows) (f m)
    else nutrient_sum f uid d rows.
Proof.
  induction rows as [|x rows IH]; cbn [app nutrient_sum].
  - destruct (decide (Meal.user_id m = uid ∧ Meal.date m = d));
      [|reflexivity].
    rewrite fadd_zero_r, fadd_zero_l. reflexivity.
  - rewrite IH.
    destruct (decide (Meal.user_id x = uid ∧ Meal.date x = d));
      destruct (decide (Meal.user_id m = uid ∧ Meal.date m = d));
      try reflexivity.
    apply fadd_assoc.
Qed.

Lemma filter_other_keys (rows : list Meal.t) (pk : Z) :
  pk ∉ map Meal.id rows -> filter (fun x => Meal.id x ≠ pk) rows = rows.
Proof.
  induction rows as [|x rows IH]; intros H; [reflexivity|].
  cbn [map] in H. apply not_elem_of_cons in H as [Hx H].
  rewrite filter_cons. destruct (decide (Meal.id x ≠ pk)) as [_|Hn].
  - rewrite (IH H). reflexivity.
  - destruct Hn. congruence.
Qed.

Lemma nutrient_sum_remove (f : Meal.t -> pyfloat) (uid d : Z)
  (rows : list Meal.t) (m : Meal.t) :
  NoDup (map Meal.id rows) -> m ∈ rows ->
  nutrient_sum f uid d rows
  = if decide (Meal.user_id m = uid ∧ Meal.date m = d)
    then fadd (f m)
              (nutrient_sum f uid d
                 (filter (fun x => Meal.id x ≠ Meal.id m) rows))
    else nutrient_sum f uid d (filter (fun x => Meal.id x ≠ Meal.id m) rows).
Proof.
  induction rows as [|x rows IH]; intros Hnd Hin.
  - apply elem_of_nil in Hin. contradiction.
  - cbn [map] in Hnd. apply NoDup_cons in Hnd as [Hx Hnd].
    rewrite filter_cons. apply elem_of_cons in Hin as [<-|Hin].
    + destruct (decide (Meal.id m ≠ Meal.id m)) as [Hn|_]; [congruence|].
      rewrite (filter_other_keys _ _ Hx). reflexivity.
    + assert (Hne : Meal.id x ≠ Meal.id m).
      { intros Heq. apply Hx. rewrite Heq.
        apply (list_elem_of_fmap_2 Meal.id). exact Hin. }
      destruct (decide (Meal.id x ≠ Meal.id m)); [|contradiction].
      cbn [nutrient_sum]. rewrite (IH Hnd Hin).
      destruct (decide (Meal.user_id x = uid ∧ Meal.date x = d));
        destruct (decide (Meal.user_id m = uid ∧ Meal.date m = d));
        try reflexivity.
      rewrite !fadd_assoc, (fadd_comm (f x) (f m)). reflexivity.
Qed.

Lemma dashboard_totals (e : env) (req : request) (s : state) (u : User.t) :
  current_user s req = Some u ->
  ∃ ctx s',
    dashboard e req s = (Ok (RenderDashboard ctx), s')
    ∧ page_totals ctx
      = map (fun kf => (fst kf, nutrient_sum (snd kf) (User.id u) (today e)
                                             (meal_table s)))
            [("calories", Meal.calories); ("protein", Meal.protein);
             ("carbs", Meal.carbs); ("fat", Meal.fat); ("fiber", Meal.fiber);
             ("sugar", Meal.sugar); ("sodium", Meal.sodium)].
Proof.
  intros Hu.
  destruct (get_limits_total u s) as (l & s1 & Hl & _).
  unfold dashboard. rewrite (login_required_user _ _ _ _ Hu).
  unfold dashboard_view, bind, get_state, ret. rewrite Hl.
  eexists _, _. split; [reflexivity|].
  cbn [page_totals map fst snd]. rewrite !sum_of_ordered. reflexivity.
Qed.


(** X4. A run of [add_meal] never changes the users, the goals or the
    limits; it leaves the meals as they were or appends one row, which
    belongs to the caller and has a primary key above every key in use; the
    meals any other user sees on any date are the same as before. *)
Theorem add_meal_writes_one_own_meal
  (secure_filename : string -> string) (json_loads : string -> option json)
  (e : env) (req : request) (s : state) :
  let s' := snd (add_meal secure_filename json_loads e req s) in
  user_table s' = user_table s
  ∧ goal_table s' = goal_table s
  ∧ daily_limit_table s' = daily_limit_table s
  ∧ (meal_table s' = meal_table s
     ∨ ∃ u m, current_user s req = Some u
              ∧ meal_table s' = meal_table s ++ [m]
              ∧ Meal.user_id m = User.id u
              ∧ ∀ m', m' ∈ meal_table s -> Meal.id m' < Meal.id m)
  ∧ ∀ uid d, (∀ u, current_user s req = Some u -> User.id u ≠ uid) ->
             meals_filter_by uid d s' = meals_filter_by uid d s.
Proof.
  cbv zeta.
  destruct (add_meal_effect secure_filename json_loads e req s)
    as (Hus & Hgs & Hls & Hmeals).
  split; [exact Hus|]. split; [exact Hgs|]. split; [exact Hls|].
  destruct Hmeals as [Hsame|(u & m & Hu & Happ & Hid & Hown & _)].
  - split; [left; exact Hsame|].
    intros uid d _. unfold meals_filter_by. rewrite Hsame. reflexivity.
  - split.
    + right. exists u, m. split; [exact Hu|]. split; [exact Happ|].
      split; [exact Hown|]. intros m' Hm'. rewrite Hid.
      apply next_id_fresh. apply (list_elem_of_fmap_2 Meal.id). exact Hm'.
    + intros uid d Hother. unfold meals_filter_by.
      rewrite Happ, filter_app, filter_cons.
      destruct (decide (Meal.user_id m = uid ∧ Meal.date m = d))
        as [[Hm _]|_].
      * destruct (Hother u Hu). congruence.
      * rewrite filter_nil. apply app_nil_r.
Qed.

(** X5. Deleting the meal that [add_meal] has just stored gives back the
    table of meals as it was before the two requests. *)
Theorem delete_undoes_add_meal
  (secure_filename : string -> string) (json_loads : string -> option json)
  (e : env) (req : request) (s : state) (u : User.t) (m : Meal.t) :
  current_user s req = Some u ->
  meal_table (snd (add_meal secure_filename json_loads e req s))
  = meal_table s ++ [m] ->
  ∃ s'', delete_meal (Meal.id m) req
           (snd (add_meal secure_filename json_loads e req s))
         = (Ok (Redirect "dashboard"), s'')
         ∧ meal_table s'' = meal_table s.
Proof.
  intros Hu Hm.
  destruct (add_meal_effect secure_filename json_loads e req s)
    as (Hus & _ & _ & [Hsame|(u' & m' & Hu' & Happ & Hid & Hown & _)]).
  { rewrite Hsame in Hm. destruct (not_appended _ _ Hm). }
  rewrite Hm in Happ. apply app_inv_head in Happ. injection Happ as <-.
  rewrite Hu in Hu'. injection Hu' as <-.
  assert (Hfresh : Meal.id m ∉ map Meal.id (meal_table s)).
  { intros Hin. apply next_id_fresh in Hin. lia. }
  unfold delete_meal.
  rewrite (login_required_user _ _ _ u)
    by (rewrite (current_user_same_users _ _ req Hus); exact Hu).
  unfold delete_meal_view, bind, get_state, get_or_404. rewrite Hm.
  assert (Hfound : filter (fun r => Meal.id r = Meal.id m)
                          (meal_table s ++ [m]) = [m]).
  { rewrite filter_app, filter_cons, filter_nil.
    destruct (decide (Meal.id m = Meal.id m)); [|congruence].
    replace (filter _ (meal_table s)) with (@nil Meal.t); [reflexivity|].
    symmetry. clear -Hfresh.
    induction (meal_table s) as [|x t IH]; [reflexivity|].
    cbn [map] in Hfresh. apply not_elem_of_cons in Hfresh as [Hx Ht].
    rewrite filter_cons.
    destruct (decide (Meal.id x = Meal.id m)); [congruence|].
    apply IH. exact Ht. }
  rewrite Hfound. cbn [head ret].
  rewrite bool_decide_eq_false_2 by (intros H; apply H; exact Hown).
  assert (Hrest : filter (fun x => Meal.id x ≠ Meal.id m)
                         (meal_table s ++ [m]) = meal_table s).
  { rewrite filter_app, filter_cons, filter_nil.
    destruct (decide (Meal.id m ≠ Meal.id m)); [congruence|].
    rewrite (filter_other_keys _ _ Hfresh). apply app_nil_r. }
  destruct (Meal.image_path m) as [path|];
    [destruct (bool_decide (path = ""))|]; cbn [negb];
    (eexists; split; [reflexivity|]);
    cbn [with_meals with_uploads meal_table modify]; rewrite Hm; exact Hrest.
Qed.


(** ** Goals *)

Lemma head_filter_key {A : Type} (pk_of : A -> Z) (rows : list A) (pk : Z)
  (r : A) :
  head (filter (fun x => pk_of x = pk) rows) = Some r ->
  r ∈ rows ∧ pk_of r = pk.
Proof.
  intros H.
  destruct (filter (fun x => pk_of x = pk) rows) as [|x t] eqn:E;
    [discriminate|].
  injection H as ->.
  assert (Hin : r ∈ filter (fun x => pk_of x = pk) rows) by (rewrite E; left).
  apply list_elem_of_filter in Hin. tauto.
Qed.

Lemma head_filter_map {A : Type} (pk_of : A -> Z) (F : A -> A)
  (rows : list A) (pk : Z) :
  (∀ x, pk_of (F x) = pk_of x) ->
  head (filter (fun x => pk_of x = pk) (map F rows))
  = option_map F (head (filter (fun x => pk_of x = pk) rows)).
Proof.
  intros HF. induction rows as [|x rows IH]; [reflexivity|].
  cbn [map]. rewrite !filter_cons, HF.
  destruct (decide (pk_of x = pk)); [reflexivity|exact IH].
Qed.

Lemma complete_goal_run (pk : Z) (req : request) (s : state) (u : User.t)
  (goal : Goal.t) :
  current_user s req = Some u ->
  head (filter (fun r => Goal.id r = pk) (goal_table s)) = Some goal ->
  Goal.user_id goal = User.id u ->
  complete_goal pk req s
  = (Ok (Redirect "goals"),
     with_goals (map (fun g => if decide (Goal.id g = Goal.id goal)
                               then Goal.set_completed true g else g))
                (if Goal.completed goal then []
                 else [Update TGoal (Goal.id goal)]) s).
Proof.
  intros Hu Hhead Hown. unfold complete_goal.
  rewrite (login_required_user _ _ _ _ Hu).
  unfold complete_goal_view, bind, get_state, get_or_404. rewrite Hhead.
  cbn [ret]. rewrite bool_decide_eq_false_2 by (intros H; apply H; exact Hown).
  reflexivity.
Qed.

Lemma complete_goal_success (pk : Z) (req : request) (s : state) :
  fst (complete_goal pk req s) = Ok (Redirect "goals") ->
  ∃ u goal, current_user s req = Some u
            ∧ head (filter (fun r => Goal.id r = pk) (goal_table s))
              = Some goal
            ∧ Goal.user_id goal = User.id u.
Proof.
  unfold complete_goal, login_required.
  destruct (current_user s req) as [u|] eqn:Hu; [|discriminate].
  unfold complete_goal_view, bind, get_state, get_or_404.
  destruct (head (filter (fun r => Goal.id r = pk) (goal_table s)))
    as [goal|] eqn:Hhead; [|discriminate].
  cbn [ret].
  destruct (decide (Goal.user_id goal = User.id u)) as [Hown|Hown].
  - intros _. exists u, goal. auto.
  - rewrite bool_decide_eq_true_2 by exact Hown. discriminate.
Qed.

(** X7. Completing a goal that was just completed is a no-op: when
    [complete_goal] has answered with its redirect, the same request again
    answers with the same redirect and leaves the database, journal
    included, exactly as it was. *)
Theorem complete_goal_is_idempotent (pk : Z) (req : request) (s : state) :
  fst (complete_goal pk req s) = Ok (Redirect "goals") ->
  complete_goal pk req (snd (complete_goal pk req s))
  = (Ok (Redirect "goals"), snd (complete_goal pk req s)).
Proof.
  intros Hfirst.
  destruct (complete_goal_success pk req s Hfirst)
    as (u & goal & Hu & Hhead & Hown).
  rewrite (complete_goal_run pk req s u goal Hu Hhead Hown). cbn [snd].
  destruct (head_filter_key _ _ _ _ Hhead) as [_ Hpk].
  set (F := fun g => if decide (Goal.id g = Goal.id goal)
                     then Goal.set_completed true g else g).
  assert (HF : ∀ x, Goal.id (F x) = Goal.id x).
  { intros x. unfold F. destruct (decide (Goal.id x = Goal.id goal));
      reflexivity. }
  assert (HFF : ∀ x, F (F x) = F x).
  { intros x. unfold F. destruct (decide (Goal.id x = Goal.id goal)) as [Hx|Hx].
    - cbn [Goal.set_completed Goal.id].
      destruct (decide (Goal.id x = Goal.id goal)); [reflexivity|contradiction].
    - destruct (decide (Goal.id x = Goal.id goal)); [contradiction|reflexivity]. }
  assert (HFg : F goal = Goal.set_completed true goal).
  { unfold F. destruct (decide (Goal.id goal = Goal.id goal));
      [reflexivity|congruence]. }
  set (s1 := with_goals (map F) _ s).
  rewrite (complete_goal_run pk req s1 u (F goal)).
  - f_equal. rewrite HFg.
    cbn [Goal.set_completed Goal.completed Goal.id].
    unfold s1, with_goals. cbn [user_table meal_table goal_table
      daily_limit_table journal uploads].
    rewrite app_nil_r. f_equal.
    rewrite <- list_fmap_compose. apply list_fmap_ext. intros i x _.
    cbn. apply HFF.
  - rewrite (current_user_same_users s s1 req eq_refl). exact Hu.
  - unfold s1. cbn [with_goals goal_table].
    rewrite (head_filter_map Goal.id F _ _ HF), Hhead. reflexivity.
  - rewrite HFg. exact Hown.
Qed.

(** A run of [add_goal] that answers has appended one open goal of the
    caller under a fresh key. *)
Lemma add_goal_effect (strptime_date : string -> option Z) (e : env)
  (req : request) (s s1 : state) (u : User.t) (r : response) :
  current_user s req = Some u ->
  add_goal strptime_date e req s = (Ok r, s1) ->
  ∃ g, s1 = with_goals (fun t => t ++ [g]) [Insert TGoal (Goal.id g)] s
       ∧ Goal.id g = next_id (map Goal.id (goal_table s))
       ∧ Goal.user_id g = User.id u
       ∧ Goal.completed g = false
       ∧ Goal.current_value g = of_int 0
       ∧ Goal.start_date g = today e.
Proof.
  intros Hu. unfold add_goal. rewrite (login_required_user _ _ _ _ Hu).
  unfold add_goal_view, bind.
  destruct (form_float_cases req "target_value" 0 s)
    as [(v & _ & ->)|(_ & ->)]; [|discriminate].
  destruct (assoc "end_date" (form req)) as [text|].
  - destruct (negb (bool_decide (text = ""))).
    + destruct (strptime_date text); [|discriminate].
      intros [= <- <-]. eexists (Goal.mk _ _ _ _ _ _ _ _ _ _ _ _).
      split; [reflexivity|]. repeat split.
    + intros [= <- <-]. eexists (Goal.mk _ _ _ _ _ _ _ _ _ _ _ _).
      split; [reflexivity|]. repeat split.
  - intros [= <- <-]. eexists (Goal.mk _ _ _ _ _ _ _ _ _ _ _ _).
    split; [reflexivity|]. repeat split.
Qed.

Lemma filter_none_with_key {A : Type} (pk_of : A -> Z) (rows : list A) (pk : Z) :
  pk ∉ map pk_of rows -> filter (fun x => pk_of x = pk) rows = [].
Proof.
  induction rows as [|x rows IH]; intros H; [reflexivity|].
  cbn [map] in H. apply not_elem_of_cons in H as [Hx H].
  rewrite filter_cons. destruct (decide (pk_of x = pk)); [congruence|].
  apply IH. exact H.
Qed.

(** X8. A goal created by [add_goal] is open: it is the one entry added to
    the caller's open goals (the list the dashboard shows).  Completing it
    succeeds, marks the stored row as completed and takes it off that list
    again, which is then what it was before the goal was created. *)
Theorem new_goal_is_open_until_completed
  (strptime_date : string -> option Z) (e : env) (req : request)
  (s s1 : state) (u : User.t) :
  current_user s req = Some u ->
  add_goal strptime_date e req s = (Ok (Redirect "goals"), s1) ->
  ∃ g s2,
    open_goals (User.id u) s1 = open_goals (User.id u) s ++ [g]
    ∧ goal_table s1 = goal_table s ++ [g]
    ∧ complete_goal (Goal.id g) req s1 = (Ok (Redirect "goals"), s2)
    ∧ goal_table s2 = goal_table s ++ [Goal.set_completed true g]
    ∧ open_goals (User.id u) s2 = open_goals (User.id u) s.
Proof.
  intros Hu Hadd.
  destruct (add_goal_effect _ _ _ _ _ _ _ Hu Hadd)
    as (g & -> & Hid & Hown & Hopen & _).
  assert (Hfresh : Goal.id g ∉ map Goal.id (goal_table s)).
  { intros Hin. apply next_id_fresh in Hin. lia. }
  set (s1 := with_goals (fun t => t ++ [g]) _ s).
  assert (Hhead : head (filter (fun r => Goal.id r = Goal.id g) (goal_table s1))
                  = Some g).
  { unfold s1. cbn [with_goals goal_table].
    rewrite filter_app, (filter_none_with_key _ _ _ Hfresh), filter_cons.
    destruct (decide (Goal.id g = Goal.id g)); [reflexivity|congruence]. }
  assert (Hmap : map (fun x => if decide (Goal.id x = Goal.id g)
                               then Goal.set_completed true x else x)
                     (goal_table s ++ [g])
                 = goal_table s ++ [Goal.set_completed true g]).
  { rewrite map_app. cbn [map].
    destruct (decide (Goal.id g = Goal.id g)); [|congruence]. f_equal.
    clear -Hfresh. induction (goal_table s) as [|x t IH]; [reflexivity|].
    cbn [map] in *. apply not_elem_of_cons in Hfresh as [Hx Ht].
    destruct (decide (Goal.id x = Goal.id g)); [congruence|].
    rewrite (IH Ht). reflexivity. }
  eexists g, _. split.
  { unfold open_goals, s1. cbn [with_goals goal_table].
    rewrite filter_app, filter_cons.
    destruct (decide (Goal.user_id g = User.id u ∧ Goal.completed g = false))
      as [_|Hn]; [reflexivity|]. destruct Hn. split; assumption. }
  split; [reflexivity|]. split.
  { apply (complete_goal_run _ _ _ u g); [|exact Hhead|exact Hown].
    rewrite (current_user_same_users s s1 req eq_refl). exact Hu. }
  unfold s1. cbn [with_goals goal_table]. rewrite Hmap.
  split; [reflexivity|].
  unfold open_goals. cbn [with_goals goal_table].
  rewrite Hmap, filter_app, filter_cons.
  destruct (decide (Goal.user_id (Goal.set_completed true g) = User.id u
                    ∧ Goal.completed (Goal.set_completed true g) = false))
    as [[_ Hc]|_]; [discriminate Hc|].
  rewrite filter_nil. apply app_nil_r.
Qed.

(** ** The goals page *)

Lemma insert_newest_perm (g : Goal.t) (l : list Goal.t) :
  insert_newest g l ≡ₚ g :: l.
Proof.
  induction l as [|x l IH]; cbn [insert_newest]; [reflexivity|].
  destruct (Goal.created_at x <=? Goal.created_at g); [reflexivity|].
  rewrite IH. apply Permutation_swap.
Qed.

Lemma newest_first_perm (l : list Goal.t) : newest_first l ≡ₚ l.
Proof.
  induction l as [|x l IH]; cbn; [reflexivity|].
  rewrite insert_newest_perm. constructor. exact IH.
Qed.

Lemma insert_newest_sorted (g : Goal.t) (l : list Goal.t) :
  StronglySorted not_older l -> StronglySorted not_older (insert_newest g l).
Proof.
  induction l as [|x l IH]; intros Hs; cbn [insert_newest].
  - repeat constructor.
  - apply StronglySorted_cons in Hs as [Hx Hs].
    destruct (Goal.created_at x <=? Goal.created_at g) eqn:E.
    + apply Z.leb_le in E. constructor.
      * constructor; [exact Hs|exact Hx].
      * constructor; [exact E|].
        eapply Forall_impl; [exact Hx|]. unfold not_older. intros y Hy. lia.
    + apply Z.leb_gt in E. constructor; [apply IH; exact Hs|].
      rewrite (insert_newest_perm g l). constructor; [|exact Hx].
      unfold not_older. lia.
Qed.

Lemma newest_first_sorted (l : list Goal.t) :
  StronglySorted not_older (newest_first l).
Proof.
  induction l as [|x l IH]; cbn; [constructor|].
  apply insert_newest_sorted. exact IH.
Qed.

(** X9. The goals page of a user changes nothing in the database.  Its
    active list holds exactly the user's open goals, the ones the dashboard
    shows, newest first.  Its completed list holds at most ten goals, all
    completed goals of that user, newest first, and every completed goal of
    the user that is left out is no newer than any goal listed. *)
Theorem goals_page_lists (u : User.t) (s : state) :
  ∃ page,
    goals_view u s = (Ok page, s)
    ∧ active_goals page ≡ₚ open_goals (User.id u) s
    ∧ StronglySorted not_older (active_goals page)
    ∧ StronglySorted not_older (completed_goals page)
    ∧ (length (completed_goals page) <= 10)%nat
    ∧ (∀ g, g ∈ completed_goals page ->
            g ∈ goal_table s ∧ Goal.user_id g = User.id u
            ∧ Goal.completed g = true)
    ∧ ∀ g shown, g ∈ goal_table s -> Goal.user_id g = User.id u ->
                 Goal.completed g = true -> g ∉ completed_goals page ->
                 shown ∈ completed_goals page -> not_older shown g.
Proof.
  eexists. split; [reflexivity|]. cbn [active_goals completed_goals].
  set (done := newest_first
                 (filter (fun g => Goal.user_id g = User.id u
                                   ∧ Goal.completed g = true) (goal_table s))).
  assert (Hdone : ∀ g, g ∈ done ↔ g ∈ goal_table s
                                  ∧ Goal.user_id g = User.id u
                                  ∧ Goal.completed g = true).
  { intros g. unfold done. rewrite (newest_first_perm _).
    rewrite list_elem_of_filter. tauto. }
  pose proof (newest_first_sorted
                (filter (fun g => Goal.user_id g = User.id u
                                  ∧ Goal.completed g = true) (goal_table s)))
    as Hsorted.
  fold done in Hsorted. rewrite <- (take_drop 10 done) in Hsorted.
  split; [apply newest_first_perm|].
  split; [apply newest_first_sorted|].
  split; [exact (StronglySorted_app_1_l _ _ _ Hsorted)|].
  split; [rewrite length_take; lia|].
  split.
  - intros g Hg. apply Hdone.
    rewrite <- (take_drop 10 done). apply elem_of_app. left. exact Hg.
  - intros g shown Hin Hown Hc Hout Hshown.
    assert (Hg : g ∈ done) by (apply Hdone; auto).
    rewrite <- (take_drop 10 done) in Hg. apply elem_of_app in Hg as [Hg|Hg];
      [contradiction|].
    exact (StronglySorted_app_1_elem_of _ _ _ _ _ Hsorted Hshown Hg).
Qed.

(** ** Accounts *)

Lemma violates_unique_false (user : User.t) (rows : list User.t) (t : string) :
  violates_unique user rows = false -> User.share_token user = Some t ->
  ∀ u, u ∈ rows -> User.username u ≠ User.username user
                   ∧ User.email u ≠ User.email user
                   ∧ User.share_token u ≠ Some t.
Proof.
  unfold violates_unique. intros H Ht u Hu. rewrite Ht in H.
  apply orb_false_elim in H as [H Htok].
  apply orb_false_elim in H as [Hname Hmail].
  apply bool_decide_eq_false_1 in Hname, Hmail, Htok.
  repeat split; intros Heq.
  - apply Hname. rewrite <- Heq.
    apply (list_elem_of_fmap_2 User.username). exact Hu.
  - apply Hmail. rewrite <- Heq.
    apply (list_elem_of_fmap_2 User.email). exact Hu.
  - apply Htok. apply list_elem_of_omap. exists u. split; assumption.
Qed.

(** The two ways a run of [register] ends: without a write, or with the
    new account stored, its limits resolved and its id in the session. *)
Lemma register_cases (a : accounts) (e : env) (req : request) (s : state) :
  (snd (register a e req s) = s
   ∧ (fst (register a e req s) = Ok UncaughtIntegrityError
      ∨ ∃ r, fst (register a e req s) = Ok (Answered r (session_user_id req))))
  ∨ ∃ user,
      registers a e req s user
      ∧ register a e req s
        = (Ok (Answered (Redirect "dashboard") (Some (User.id user))),
           snd (get_limits user
                  (with_users (fun t => t ++ [user])
                              [Insert TUser (User.id user)] s))).
Proof.
  unfold register, bind, get_state.
  destruct (current_user s req) as [u|] eqn:Hu; [left; cbn; eauto|].
  destruct (method req) eqn:Hm; [left; cbn; eauto|].
  set (username := strip (form_get_str (form req) "username" "")).
  set (email := strip (form_get_str (form req) "email" "")).
  set (password := form_get_str (form req) "password" "").
  destruct (decide (username = "")) as [Hn|Hn];
    [rewrite (bool_decide_eq_true_2 _ Hn); left; cbn; eauto|].
  destruct (decide (email = "")) as [He|He];
    [rewrite (bool_decide_eq_true_2 _ He), orb_true_r; left; cbn; eauto|].
  destruct (decide (password = "")) as [Hp|Hp];
    [rewrite (bool_decide_eq_true_2 _ Hp), orb_true_r; left; cbn; eauto|].
  rewrite !bool_decide_eq_false_2 by assumption. cbn [orb].
  destruct (head (filter _ (user_table s))); [left; cbn; eauto|].
  set (user := User.mk _ _ _ _ _ _).
  destruct (violates_unique user (user_table s)) eqn:Hv; [left; cbn; eauto|].
  right. exists user. split.
  - split; [exact Hu|]. split; [exact Hm|]. split; [reflexivity|].
    split; [exact Hn|]. split; [exact He|]. split; [exact Hp|].
    apply (violates_unique_false user); [exact Hv|reflexivity].
  - unfold modify, ret.
    destruct (get_limits_total user
                (with_users (fun t => t ++ [user])
                            [Insert TUser (User.id user)] s))
      as (l & s2 & Hl & _).
    rewrite Hl. reflexivity.
Qed.

Lemma get_limits_tables (u : User.t) (s : state) :
  user_table (snd (get_limits u s)) = user_table s
  ∧ meal_table (snd (get_limits u s)) = meal_table s
  ∧ goal_table (snd (get_limits u s)) = goal_table s
  ∧ is_Some (limits_of (User.id u) (snd (get_limits u s))).
Proof.
  destruct (get_limits_total u s) as (l & s' & Hl & Hfound & Hu & Hm & Hg & _).
  rewrite Hl. cbn [snd]. rewrite Hfound. eauto.
Qed.


Lemma register_logged_in (a : accounts) (e : env) (req : request) (s : state)
  (r : response) (uid : Z) :
  session_user_id req = None ->
  fst (register a e req s) = Ok (Answered r (Some uid)) ->
  ∃ user,
    registers a e req s user ∧ User.id user = uid
    ∧ register a e req s
      = (Ok (Answered (Redirect "dashboard") (Some (User.id user))),
         snd (get_limits user
                (with_users (fun t => t ++ [user])
                            [Insert TUser (User.id user)] s))).
Proof.
  intros Hanon Hfst.
  destruct (register_cases a e req s)
    as [[_ [Hbad|[r' Hbad]]]|(user & Hreg & Hrun)].
  - rewrite Hbad in Hfst. discriminate.
  - rewrite Hbad, Hanon in Hfst. discriminate.
  - exists user. split; [exact Hreg|]. split; [|exact Hrun].
    rewrite Hrun in Hfst. cbn in Hfst. congruence.
Qed.

(** X11. After a registration that logged the new user in, a login with
    the same form, from a request without a session, logs in the same
    user, provided the password check accepts the hash made from the
    password. *)
Theorem login_after_register
  (a : accounts) (e : env) (req : request) (s : state) (r : response)
  (uid : Z) :
  session_user_id req = None ->
  check_password_hash a
    (generate_password_hash a (form_get_str (form req) "password" ""))
    (form_get_str (form req) "password" "") = true ->
  fst (register a e req s) = Ok (Answered r (Some uid)) ->
  login a req (snd (register a e req s))
  = (Ok (Answered (Redirect "dashboard") (Some uid)),
     snd (register a e req s)).
Proof.
  intros Hanon Hcheck Hfst.
  destruct (register_logged_in a e req s r uid Hanon Hfst)
    as (user & Hreg & Hid & Hrun).
  destruct Hreg as (_ & Hpost & Huser & _ & _ & _ & Hfree).
  rewrite Hrun. cbn [snd]. clear Hrun.
  destruct (get_limits_tables user
              (with_users (fun t => t ++ [user])
                          [Insert TUser (User.id user)] s))
    as (Hu & _).
  set (s' := snd (get_limits user _)) in *.
  unfold login, bind, get_state.
  assert (Hcur : current_user s' req = None).
  { unfold current_user. rewrite Hanon. reflexivity. }
  rewrite Hcur, Hpost, Hu. cbn [with_users user_table].
  assert (Hhead : head (filter (fun u => User.username u
                                         = strip (form_get_str (form req)
                                                    "username" ""))
                               (user_table s ++ [user])) = Some user).
  { rewrite filter_app, filter_cons.
    replace (filter _ (user_table s)) with (@nil User.t).
    - destruct (decide (User.username user
                        = strip (form_get_str (form req) "username" "")))
        as [_|Hn]; [reflexivity|].
      destruct Hn. rewrite Huser. reflexivity.
    - symmetry. clear -Hfree Huser.
      assert (Hname : User.username user
                      = strip (form_get_str (form req) "username" ""))
        by (rewrite Huser; reflexivity).
      rewrite <- Hname. clear Hname Huser.
      induction (user_table s) as [|x t IH]; [reflexivity|].
      rewrite filter_cons.
      destruct (decide (User.username x = User.username user)) as [Hx|_].
      + destruct (Hfree x) as [Hn _]; [left|]. contradiction.
      + apply IH. intros u0 Hu0. apply Hfree. right. exact Hu0. }
  rewrite Hhead.
  replace (User.password_hash user)
    with (generate_password_hash a (form_get_str (form req) "password" ""))
    by (rewrite Huser; reflexivity).
  rewrite Hcheck, Hid. reflexivity.
Qed.


Lemma fresh_user_owns_nothing (s : state) :
  owners_exist s ->
  let uid := next_id (map User.id (user_table s)) in
  (∀ m, m ∈ meal_table s -> Meal.user_id m ≠ uid)
  ∧ (∀ g, g ∈ goal_table s -> Goal.user_id g ≠ uid)
  ∧ (∀ l, l ∈ daily_limit_table s -> DailyLimit.user_id l ≠ uid).
Proof.
  intros (Hm & Hg & Hl). cbv zeta.
  assert (Hfresh : ∀ x, user_exists s x
                        -> x ≠ next_id (map User.id (user_table s))).
  { intros x (u & Hu & <-). apply next_id_not_in. exact Hu. }
  repeat split; intros r Hr; apply Hfresh; auto.
Qed.

Lemma filter_nothing {A : Type} (P : A -> Prop) `{!∀ x, Decision (P x)}
  (l : list A) :
  (∀ x, x ∈ l -> ¬ P x) -> filter P l = [].
Proof.
  induction l as [|x l IH]; intros Hno; [reflexivity|].
  rewrite filter_cons. destruct (decide (P x)) as [Hx|_].
  - destruct (Hno x); [left|exact Hx].
  - apply IH. intros y Hy. apply Hno. right. exact Hy.
Qed.

(** X13. In a database whose rows all belong to stored users, after a
    registration that logged the new user in, the drawn token opens the
    shared page of exactly that user, and the page shows no meals, no goals,
    totals of zero and the ten baseline limits. *)
Theorem fresh_account_shared_page
  (a : accounts) (e e' : env) (req : request) (s : state) (r : response)
  (uid : Z) :
  session_user_id req = None ->
  owners_exist s ->
  fst (register a e req s) = Ok (Answered r (Some uid)) ->
  ∃ user ctx s'',
    User.id user = uid
    ∧ shared_profile e' (token_urlsafe a) (snd (register a e req s))
      = (Ok (RenderShared user ctx), s'')
    ∧ page_meals ctx = []
    ∧ page_goals ctx = []
    ∧ Forall (fun kv => snd kv = fzero) (page_totals ctx)
    ∧ DailyLimit.ceilings (page_limits ctx) = baseline.
Proof.
  intros Hanon Hown Hfst.
  destruct (register_logged_in a e req s r uid Hanon Hfst)
    as (user & Hreg & Hid & Hrun).
  destruct Hreg as (_ & _ & Huser & _ & _ & _ & Hfree).
  destruct (fresh_user_owns_nothing s Hown) as (Hmeals & Hgoals & Hlimits).
  assert (Hnew : User.id user = next_id (map User.id (user_table s)))
    by (rewrite Huser; reflexivity).
  assert (Htok : User.share_token user = Some (token_urlsafe a))
    by (rewrite Huser; reflexivity).
  rewrite Hrun. cbn [snd]. clear Hrun Hfst.
  set (s1 := with_users (fun t => t ++ [user]) [Insert TUser (User.id user)] s).
  assert (Hmiss : limits_of (User.id user) s1 = None).
  { unfold limits_of, s1. cbn [with_users daily_limit_table].
    rewrite filter_nothing; [reflexivity|].
    intros l Hl. rewrite Hnew. apply Hlimits. exact Hl. }
  rewrite (get_limits_miss user s1 Hmiss). cbn [snd].
  set (row := DailyLimit.fresh _ (User.id user)).
  set (s2 := with_limits (fun t => t ++ [row]) _ s1).
  assert (Hhit : limits_of (User.id user) s2 = Some row).
  { apply limits_of_after_miss; [exact Hmiss|reflexivity]. }
  unfold shared_profile, bind, get_state, ret.
  assert (Hone : filter (fun u => User.share_token u = Some (token_urlsafe a))
                        (user_table s2) = [user]).
  { unfold s2, s1. cbn [with_limits with_users user_table].
    rewrite filter_app, filter_cons, filter_nil.
    rewrite filter_nothing by (intros x Hx; apply Hfree; exact Hx).
    destruct (decide (User.share_token user = Some (token_urlsafe a)));
      [reflexivity|contradiction]. }
  rewrite Hone. cbn [head]. rewrite (get_limits_hit user s2 row Hhit).
  assert (Hnone : ∀ d, meals_filter_by (User.id user) d s2 = []).
  { intros d. unfold meals_filter_by, s2, s1.
    cbn [with_limits with_users meal_table].
    apply filter_nothing. intros m Hm [Hu _]. rewrite Hnew in Hu.
    exact (Hmeals m Hm Hu). }
  eexists user, _, _. split; [exact Hid|]. split; [reflexivity|].
  cbn [page_meals page_goals page_totals page_limits].
  rewrite !Hnone. split; [reflexivity|]. split.
  { unfold open_goals, s2, s1. cbn [with_limits with_users goal_table].
    apply filter_nothing. intros g Hg [Hu _]. rewrite Hnew in Hu.
    exact (Hgoals g Hg Hu). }
  split; [|reflexivity].
  repeat (apply List.Forall_cons; [reflexivity|]). apply List.Forall_nil.
Qed.

(** ** What requests keep true of the database *)

Lemma consistent_same_tables (s s' : state) :
  user_table s' = user_table s -> meal_table s' = meal_table s ->
  goal_table s' = goal_table s ->
  daily_limit_table s' = daily_limit_table s ->
  consistent s -> consistent s'.
Proof.
  unfold consistent, keys_unique, accounts_unique, one_limits_row_per_user,
    owners_exist, user_exists.
  intros -> -> -> ->. tauto.
Qed.

Lemma NoDup_map_snoc {A : Type} (f : A -> Z) (l : list A) (x : A) :
  NoDup (map f l) -> f x ∉ map f l -> NoDup (map f (l ++ [x])).
Proof.
  intros Hnd Hx. rewrite map_app. apply NoDup_app. split; [exact Hnd|].
  split; [|apply NoDup_singleton].
  intros y Hy Hin. apply list_elem_of_singleton in Hin. subst y.
  contradiction.
Qed.

Lemma NoDup_map_filter {A B : Type} (f : A -> B) (P : A -> Prop)
  `{!∀ x, Decision (P x)} (l : list A) :
  NoDup (map f l) -> NoDup (map f (filter P l)).
Proof.
  induction l as [|x l IH]; intros Hnd; [constructor|].
  cbn [map] in Hnd. apply NoDup_cons in Hnd as [Hx Hnd].
  rewrite filter_cons. destruct (decide (P x)); [|apply IH; exact Hnd].
  cbn [map]. apply NoDup_cons. split; [|apply IH; exact Hnd].
  intros Hin. apply Hx. apply list_elem_of_fmap in Hin as (y & -> & Hy).
  apply list_elem_of_filter in Hy as [_ Hy].
  apply (list_elem_of_fmap_2 f). exact Hy.
Qed.

Lemma next_id_new {A : Type} (pk_of : A -> Z) (rows : list A) :
  next_id (map pk_of rows) ∉ map pk_of rows.
Proof. intros Hin. apply next_id_fresh in Hin. lia. Qed.

(** Resolving the limits of a stored user keeps the database consistent. *)
Lemma get_limits_consistent (u : User.t) (s : state) :
  u ∈ user_table s -> consistent s -> consistent (snd (get_limits u s)).
Proof.
  intros Hu Hc.
  destruct (limits_of (User.id u) s) as [l|] eqn:E.
  { rewrite (get_limits_hit _ _ _ E). exact Hc. }
  rewrite (get_limits_miss _ _ E). cbn [snd].
  destruct Hc as ((Hk1 & Hk2 & Hk3 & Hk4) & Ha & Hone & (Ho1 & Ho2 & Ho3)).
  unfold consistent, keys_unique, accounts_unique, one_limits_row_per_user,
    owners_exist, user_exists.
  cbn [with_limits user_table meal_table goal_table daily_limit_table].
  split; [|split; [exact Ha|split]].
  - repeat split; try assumption.
    apply NoDup_map_snoc; [exact Hk4|]. cbn [DailyLimit.fresh DailyLimit.id].
    apply next_id_new.
  - apply NoDup_map_snoc; [exact Hone|].
    cbn [DailyLimit.fresh DailyLimit.user_id]. intros Hin.
    apply list_elem_of_fmap in Hin as (y & Hy & Hin).
    unfold limits_of in E.
    assert (Hf : y ∈ filter (fun l => DailyLimit.user_id l = User.id u)
                            (daily_limit_table s)).
    { apply list_elem_of_filter. split; [symmetry; exact Hy|exact Hin]. }
    destruct (filter _ (daily_limit_table s)); [|discriminate].
    apply elem_of_nil in Hf. contradiction.
  - repeat split; try assumption.
    intros l Hl. apply elem_of_app in Hl as [Hl|Hl]; [apply Ho3; exact Hl|].
    apply list_elem_of_singleton in Hl. subst l. exists u. split; [exact Hu|].
    reflexivity.
Qed.

Lemma register_consistent (a : accounts) (e : env) (req : request)
  (s : state) :
  consistent s -> consistent (snd (register a e req s)).
Proof.
  intros Hc.
  destruct (register_cases a e req s) as [[-> _]|(user & Hreg & ->)];
    [exact Hc|].
  cbn [snd]. apply get_limits_consistent.
  { cbn [with_users user_table]. apply elem_of_app. right. left. }
  destruct Hreg as (_ & _ & Huser & _ & _ & _ & Hfree).
  destruct Hc as ((Hk1 & Hk2 & Hk3 & Hk4) & (Ha1 & Ha2 & Ha3) & Hone
                  & (Ho1 & Ho2 & Ho3)).
  assert (Htok : User.share_token user = Some (token_urlsafe a))
    by (rewrite Huser; reflexivity).
  unfold consistent, keys_unique, accounts_unique, one_limits_row_per_user,
    owners_exist, user_exists.
  cbn [with_users user_table meal_table goal_table daily_limit_table].
  split; [|split; [|split]].
  - repeat split; try assumption.
    rewrite map_app. apply NoDup_app. split; [exact Hk1|].
    split; [|apply NoDup_singleton].
    intros y Hy Hin. apply list_elem_of_singleton in Hin. subst y.
    rewrite Huser in Hy. cbn [User.id] in Hy. exact (next_id_new _ _ Hy).
  - split; [|split].
    + rewrite map_app. apply NoDup_app. split; [exact Ha1|].
      split; [|apply NoDup_singleton].
      intros y Hy Hin. apply list_elem_of_singleton in Hin. subst y.
      apply list_elem_of_fmap in Hy as (x & Hx & Hin).
      destruct (Hfree x Hin) as (Hn & _). congruence.
    + rewrite map_app. apply NoDup_app. split; [exact Ha2|].
      split; [|apply NoDup_singleton].
      intros y Hy Hin. apply list_elem_of_singleton in Hin. subst y.
      apply list_elem_of_fmap in Hy as (x & Hx & Hin).
      destruct (Hfree x Hin) as (_ & Hn & _). congruence.
    + rewrite omap_app. cbn [omap list_omap]. rewrite Htok.
      apply NoDup_app. split; [exact Ha3|].
      split; [|apply NoDup_singleton].
      intros y Hy Hin. apply list_elem_of_singleton in Hin. subst y.
      apply list_elem_of_omap in Hy as (x & Hin & Hx).
      destruct (Hfree x Hin) as (_ & _ & Hn). contradiction.
  - exact Hone.
  - repeat split; intros r Hr;
      [destruct (Ho1 r Hr) as (u & Hu & Hid)
      |destruct (Ho2 r Hr) as (u & Hu & Hid)
      |destruct (Ho3 r Hr) as (u & Hu & Hid)];
      exists u; (split; [apply elem_of_app; left; exact Hu|exact Hid]).
Qed.

Lemma login_state (a : accounts) (req : request) (s : state) :
  snd (login a req s) = s.
Proof.
  unfold login, bind, get_state.
  destruct (current_user s req); [reflexivity|].
  destruct (method req); [reflexivity|].
  destruct (head (filter _ (user_table s))) as [user|]; [|reflexivity].
  destruct (check_password_hash a _ _); reflexivity.
Qed.

Lemma logout_state (req : request) (s : state) : snd (logout req s) = s.
Proof.
  unfold logout, bind, get_state. destruct (current_user s req); reflexivity.
Qed.

Lemma dashboard_state (e : env) (req : request) (s : state) :
  read_only s (snd (dashboard e req s)).
Proof.
  unfold read_only, dashboard, login_required.
  destruct (current_user s req) as [u|] eqn:Hu; [|left; reflexivity].
  right. exists u. split; [exact (current_user_member _ _ _ Hu)|].
  destruct (get_limits_total u s) as (l & s1 & Hl & _).
  unfold dashboard_view, bind, get_state, ret. rewrite Hl. reflexivity.
Qed.

Lemma weekly_plan_state (e : env) (req : request) (s : state) :
  read_only s (snd (weekly_plan e req s)).
Proof.
  unfold read_only, weekly_plan, login_required.
  destruct (current_user s req) as [u|] eqn:Hu; [|left; reflexivity].
  right. exists u. split; [exact (current_user_member _ _ _ Hu)|].
  destruct (get_limits_total u s) as (l & s1 & Hl & _).
  unfold weekly_plan_view, bind, get_state, ret. rewrite Hl. reflexivity.
Qed.

Lemma shared_profile_state (e : env) (token : string) (s : state) :
  read_only s (snd (shared_profile e token s)).
Proof.
  unfold read_only, shared_profile, bind, get_state.
  destruct (head (filter (fun u => User.share_token u = Some token)
                         (user_table s))) as [owner|] eqn:Hhead;
    [|left; reflexivity].
  right. exists owner. split.
  - destruct (filter (fun u => User.share_token u = Some token)
                     (user_table s)) as [|x t] eqn:E; [discriminate|].
    injection Hhead as ->.
    assert (Hin : owner ∈ filter (fun u => User.share_token u = Some token)
                                 (user_table s)) by (rewrite E; left).
    apply list_elem_of_filter in Hin as [_ Hin]. exact Hin.
  - destruct (get_limits_total owner s) as (l & s1 & Hl & _).
    rewrite Hl. reflexivity.
Qed.

Lemma read_only_consistent (s s' : state) :
  read_only s s' -> consistent s -> consistent s'.
Proof.
  intros [->|(u & Hu & ->)] Hc; [exact Hc|].
  apply get_limits_consistent; assumption.
Qed.

Lemma meal_effect_consistent (e : env) (req : request) (s s' : state) :
  meal_effect e req s s' -> consistent s -> consistent s'.
Proof.
  intros (Hus & Hgs & Hls & [Hms|(u & m & Hu & Hms & Hid & Hown & _)]) Hc.
  { apply (consistent_same_tables s); assumption. }
  destruct Hc as ((Hk1 & Hk2 & Hk3 & Hk4) & Ha & Hone & (Ho1 & Ho2 & Ho3)).
  unfold consistent, keys_unique, accounts_unique, one_limits_row_per_user,
    owners_exist, user_exists.
  rewrite Hus, Hgs, Hls, Hms.
  split; [|split; [exact Ha|split; [exact Hone|]]].
  - repeat split; try assumption.
    apply NoDup_map_snoc; [exact Hk2|]. rewrite Hid. apply next_id_new.
  - repeat split; try assumption.
    intros r Hr. apply elem_of_app in Hr as [Hr|Hr]; [apply Ho1; exact Hr|].
    apply list_elem_of_singleton in Hr. subst r. exists u.
    split; [exact (current_user_member _ _ _ Hu)|]. symmetry. exact Hown.
Qed.

Lemma delete_meal_state (pk : Z) (req : request) (s : state) :
  let s' := snd (delete_meal pk req s) in
  user_table s' = user_table s ∧ goal_table s' = goal_table s
  ∧ daily_limit_table s' = daily_limit_table s
  ∧ (meal_table s' = meal_table s
     ∨ ∃ k, meal_table s' = filter (fun m => Meal.id m ≠ k) (meal_table s)).
Proof.
  cbv zeta. unfold delete_meal, login_required.
  destruct (current_user s req) as [u|]; [|cbn; auto].
  unfold delete_meal_view, bind, get_state, get_or_404.
  destruct (head (filter _ (meal_table s))) as [meal|]; [|cbn; auto].
  cbn [ret].
  destruct (bool_decide (Meal.user_id meal ≠ User.id u)); [cbn; auto|].
  destruct (Meal.image_path meal) as [path|];
    [destruct (bool_decide (path = ""))|]; cbn; eauto 6.
Qed.

Lemma delete_goal_state (pk : Z) (req : request) (s : state) :
  let s' := snd (delete_goal pk req s) in
  user_table s' = user_table s ∧ meal_table s' = meal_table s
  ∧ daily_limit_table s' = daily_limit_table s
  ∧ (goal_table s' = goal_table s
     ∨ ∃ k, goal_table s' = filter (fun g => Goal.id g ≠ k) (goal_table s)).
Proof.
  cbv zeta. unfold delete_goal, login_required.
  destruct (current_user s req) as [u|]; [|cbn; auto].
  unfold delete_goal_view, bind, get_state, get_or_404.
  destruct (head (filter _ (goal_table s))) as [goal|]; [|cbn; auto].
  cbn [ret].
  destruct (bool_decide (Goal.user_id goal ≠ User.id u)); cbn; eauto 6.
Qed.

Lemma complete_goal_state (pk : Z) (req : request) (s : state) :
  let s' := snd (complete_goal pk req s) in
  user_table s' = user_table s ∧ meal_table s' = meal_table s
  ∧ daily_limit_table s' = daily_limit_table s
  ∧ ∃ F, (∀ x, Goal.id (F x) = Goal.id x
               ∧ Goal.user_id (F x) = Goal.user_id x)
         ∧ goal_table s' = map F (goal_table s).
Proof.
  cbv zeta. unfold complete_goal, login_required.
  assert (Hid : ∃ F : Goal.t -> Goal.t,
             (∀ x, Goal.id (F x) = Goal.id x
                   ∧ Goal.user_id (F x) = Goal.user_id x)
             ∧ goal_table s = map F (goal_table s)).
  { exists (fun x => x). split; [auto|]. symmetry. apply map_id. }
  destruct (current_user s req) as [u|]; [|cbn; auto].
  unfold complete_goal_view, bind, get_state, get_or_404.
  destruct (head (filter _ (goal_table s))) as [goal|]; [|cbn; auto].
  cbn [ret].
  destruct (bool_decide (Goal.user_id goal ≠ User.id u)); [cbn; auto|].
  cbn [snd modify ret with_goals user_table meal_table goal_table
       daily_limit_table].
  split; [reflexivity|]. split; [reflexivity|]. split; [reflexivity|].
  eexists. split; [|reflexivity].
  intros x. cbn beta. destruct (decide (Goal.id x = Goal.id goal)); auto.
Qed.

Lemma add_goal_state (strptime_date : string -> option Z) (e : env)
  (req : request) (s : state) :
  let s' := snd (add_goal strptime_date e req s) in
  user_table s' = user_table s ∧ meal_table s' = meal_table s
  ∧ daily_limit_table s' = daily_limit_table s
  ∧ (goal_table s' = goal_table s
     ∨ ∃ u g, current_user s req = Some u
              ∧ goal_table s' = goal_table s ++ [g]
              ∧ Goal.id g = next_id (map Goal.id (goal_table s))
              ∧ Goal.user_id g = User.id u).
Proof.
  cbv zeta.
  destruct (current_user s req) as [u|] eqn:Hu.
  - destruct (add_goal strptime_date e req s) as [[r|ex|c] s1] eqn:Hrun.
    + destruct (add_goal_effect _ _ _ _ _ _ _ Hu Hrun)
        as (g & -> & Hid & Hown & _).
      cbn. repeat split; try reflexivity. right. exists u, g. auto.
    + revert Hrun. unfold add_goal. rewrite (login_required_user _ _ _ _ Hu).
      unfold add_goal_view, bind.
      destruct (form_float_cases req "target_value" 0 s)
        as [(v & _ & ->)|(_ & ->)]; [|intros [= <- <-]; cbn; auto].
      destruct (assoc "end_date" (form req)) as [text|];
        [destruct (negb (bool_decide (text = "")));
         [destruct (strptime_date text)|]|];
        intros [= <- <-] || intros [=]; cbn; auto.
    + revert Hrun. unfold add_goal. rewrite (login_required_user _ _ _ _ Hu).
      unfold add_goal_view, bind.
      destruct (form_float_cases req "target_value" 0 s)
        as [(v & _ & ->)|(_ & ->)]; [|intros [=]].
      destruct (assoc "end_date" (form req)) as [text|];
        [destruct (negb (bool_decide (text = "")));
         [destruct (strptime_date text)|]|];
        intros [=].
  - unfold add_goal. rewrite (login_required_anonymous _ _ _ Hu). cbn. auto.
Qed.

Lemma limits_of_member (uid : Z) (s : state) (l : DailyLimit.t) :
  limits_of uid s = Some l -> l ∈ daily_limit_table s.
Proof.
  unfold limits_of. intros H.
  destruct (filter _ (daily_limit_table s)) as [|x r] eqn:E; [discriminate|].
  injection H as ->.
  assert (Hin : l ∈ filter (fun l => DailyLimit.user_id l = uid)
                           (daily_limit_table s)) by (rewrite E; left).
  apply list_elem_of_filter in Hin as [_ Hin]. exact Hin.
Qed.

Lemma replace_limits_consistent (s : state) (l upd : DailyLimit.t)
  (w : list write) :
  l ∈ daily_limit_table s ->
  DailyLimit.id upd = DailyLimit.id l ->
  DailyLimit.user_id upd = DailyLimit.user_id l ->
  consistent s ->
  consistent
    (with_limits (map (fun x => if decide (DailyLimit.id x = DailyLimit.id l)
                                then upd else x)) w s).
Proof.
  intros Hl Hid Hown Hc.
  destruct Hc as ((Hk1 & Hk2 & Hk3 & Hk4) & Ha & Hone & (Ho1 & Ho2 & Ho3)).
  set (F := fun x => if decide (DailyLimit.id x = DailyLimit.id l)
                     then upd else x).
  assert (HF : ∀ x, x ∈ daily_limit_table s ->
                    DailyLimit.id (F x) = DailyLimit.id x
                    ∧ DailyLimit.user_id (F x) = DailyLimit.user_id x).
  { intros x Hx. unfold F.
    destruct (decide (DailyLimit.id x = DailyLimit.id l)) as [Heq|_];
      [|auto].
    assert (x = l) by (apply (pk_injective DailyLimit.id (daily_limit_table s));
                       assumption).
    subst x. auto. }
  assert (Hids : map DailyLimit.id (map F (daily_limit_table s))
                 = map DailyLimit.id (daily_limit_table s)).
  { rewrite map_map. apply map_ext_in. intros x Hx.
    apply HF. apply list_elem_of_In. exact Hx. }
  assert (Huids : map DailyLimit.user_id (map F (daily_limit_table s))
                  = map DailyLimit.user_id (daily_limit_table s)).
  { rewrite map_map. apply map_ext_in. intros x Hx.
    apply HF. apply list_elem_of_In. exact Hx. }
  unfold consistent, keys_unique, accounts_unique, one_limits_row_per_user,
    owners_exist, user_exists.
  cbn [with_limits user_table meal_table goal_table daily_limit_table].
  fold F. rewrite Hids, Huids.
  split; [auto|]. split; [exact Ha|]. split; [exact Hone|].
  split; [exact Ho1|]. split; [exact Ho2|].
  intros r Hr. apply list_elem_of_fmap in Hr as (x & -> & Hx).
  destruct (HF x Hx) as [_ ->]. apply Ho3. exact Hx.
Qed.

Lemma settings_consistent (req : request) (s : state) :
  consistent s -> consistent (snd (settings req s)).
Proof.
  intros Hc. unfold settings, login_required.
  destruct (current_user s req) as [u|] eqn:Hu; [|exact Hc].
  pose proof (get_limits_consistent u s (current_user_member _ _ _ Hu) Hc)
    as Hc1.
  destruct (method req) eqn:Hm.
  - destruct (get_limits_total u s) as (l & s1 & Hl & _).
    unfold settings_view, bind. rewrite Hl, Hm. rewrite Hl in Hc1. exact Hc1.
  - destruct (settings_post_run req s u Hm)
      as (l & s1 & Hl & Hfound & [(v & _ & ->)|(_ & ->)]);
      rewrite Hl in Hc1; cbn [snd] in *; [|exact Hc1].
    apply replace_limits_consistent;
      [exact (limits_of_member _ _ _ Hfound)|reflexivity|reflexivity
      |exact Hc1].
Qed.

Lemma filter_goals_consistent (s s' : state) (k : Z) :
  user_table s' = user_table s -> meal_table s' = meal_table s ->
  daily_limit_table s' = daily_limit_table s ->
  goal_table s' = filter (fun g => Goal.id g ≠ k) (goal_table s) ->
  consistent s -> consistent s'.
Proof.
  intros Hus Hms Hls Hgs Hc.
  destruct Hc as ((Hk1 & Hk2 & Hk3 & Hk4) & Ha & Hone & (Ho1 & Ho2 & Ho3)).
  unfold consistent, keys_unique, accounts_unique, one_limits_row_per_user,
    owners_exist, user_exists.
  rewrite Hus, Hms, Hls, Hgs.
  split; [|split; [exact Ha|split; [exact Hone|]]].
  - repeat split; try assumption. apply NoDup_map_filter. exact Hk3.
  - repeat split; try assumption.
    intros g Hg. apply list_elem_of_filter in Hg as [_ Hg]. apply Ho2.
    exact Hg.
Qed.

Lemma filter_meals_consistent (s s' : state) (k : Z) :
  user_table s' = user_table s -> goal_table s' = goal_table s ->
  daily_limit_table s' = daily_limit_table s ->
  meal_table s' = filter (fun m => Meal.id m ≠ k) (meal_table s) ->
  consistent s -> consistent s'.
Proof.
  intros Hus Hgs Hls Hms Hc.
  destruct Hc as ((Hk1 & Hk2 & Hk3 & Hk4) & Ha & Hone & (Ho1 & Ho2 & Ho3)).
  unfold consistent, keys_unique, accounts_unique, one_limits_row_per_user,
    owners_exist, user_exists.
  rewrite Hus, Hms, Hls, Hgs.
  split; [|split; [exact Ha|split; [exact Hone|]]].
  - repeat split; try assumption. apply NoDup_map_filter. exact Hk2.
  - repeat split; try assumption.
    intros m Hm. apply list_elem_of_filter in Hm as [_ Hm]. apply Ho1.
    exact Hm.
Qed.

Section Reachable.

Variable secure_filename : string -> string.
Variable json_loads : string -> option json.
Variable strptime_date : string -> option Z.

Lemma serve_consistent (c : call) (s : state) :
  consistent s ->
  consistent (serve secure_filename json_loads strptime_date c s).
Proof.
  intros Hc. destruct c as [a e req|a req|req|e req|e req|pk req|e req|e req
                            |pk req|pk req|req|e token]; cbn [serve].
  - apply register_consistent. exact Hc.
  - rewrite login_state. exact Hc.
  - rewrite logout_state. exact Hc.
  - exact (read_only_consistent _ _ (dashboard_state e req s) Hc).
  - exact (meal_effect_consistent e req _ _
             (add_meal_effect secure_filename json_loads e req s) Hc).
  - destruct (delete_meal_state pk req s) as (Hus & Hgs & Hls & [Hms|[k Hms]]).
    + apply (consistent_same_tables s); assumption.
    + apply (filter_meals_consistent s _ k); assumption.
  - exact (read_only_consistent _ _ (weekly_plan_state e req s) Hc).
  - destruct (add_goal_state strptime_date e req s)
      as (Hus & Hms & Hls & [Hgs|(u & g & Hu & Hgs & Hid & Hown)]).
    + apply (consistent_same_tables s); assumption.
    + destruct Hc as ((Hk1 & Hk2 & Hk3 & Hk4) & Ha & Hone & (Ho1 & Ho2 & Ho3)).
      unfold consistent, keys_unique, accounts_unique,
        one_limits_row_per_user, owners_exist, user_exists.
      rewrite Hus, Hms, Hls, Hgs.
      split; [|split; [exact Ha|split; [exact Hone|]]].
      * repeat split; try assumption.
        apply NoDup_map_snoc; [exact Hk3|]. rewrite Hid. apply next_id_new.
      * repeat split; try assumption.
        intros r Hr. apply elem_of_app in Hr as [Hr|Hr];
          [apply Ho2; exact Hr|].
        apply list_elem_of_singleton in Hr. subst r. exists u.
        split; [exact (current_user_member _ _ _ Hu)|]. symmetry. exact Hown.
  - destruct (complete_goal_state pk req s)
      as (Hus & Hms & Hls & F & HF & Hgs).
    destruct Hc as ((Hk1 & Hk2 & Hk3 & Hk4) & Ha & Hone & (Ho1 & Ho2 & Ho3)).
    unfold consistent, keys_unique, accounts_unique,
      one_limits_row_per_user, owners_exist, user_exists.
    rewrite Hus, Hms, Hls, Hgs.
    split; [|split; [exact Ha|split; [exact Hone|]]].
    + repeat split; try assumption.
      rewrite map_map.
      rewrite (map_ext _ Goal.id (fun x => proj1 (HF x))). exact Hk3.
    + repeat split; try assumption.
      intros r Hr. apply list_elem_of_fmap in Hr as (x & -> & Hx).
      destruct (HF x) as [_ ->]. apply Ho2. exact Hx.
  - destruct (delete_goal_state pk req s) as (Hus & Hms & Hls & [Hgs|[k Hgs]]).
    + apply (consistent_same_tables s); assumption.
    + apply (filter_goals_consistent s _ k); assumption.
  - apply settings_consistent. exact Hc.
  - exact (read_only_consistent _ _ (shared_profile_state e token s) Hc).
Qed.

(** X14. In every database the application can reach from the empty one,
    by any sequence of requests to its views: the primary keys of each
    table are pairwise different; no two users share a username, an email
    address or a share token; each user has at most one row of daily
    limits; and each meal, goal and row of limits belongs to a stored
    user. *)
Theorem reachable_database_is_consistent (s : state) :
  reachable secure_filename json_loads strptime_date s ->
  keys_unique s ∧ accounts_unique s ∧ one_limits_row_per_user s
  ∧ owners_exist s.
Proof.
  induction 1 as [|c s _ IH].
  - unfold keys_unique, accounts_unique, one_limits_row_per_user,
      owners_exist. cbn.
    repeat split; try apply NoDup_nil_2;
      intros r Hr; apply elem_of_nil in Hr; contradiction.
  - apply serve_consistent. exact IH.
Qed.

End Reachable.

(** ** The classifier's answer and the file names *)

Lemma chars_str (l : list ascii) : chars (str l) = l.
Proof. apply String.list_ascii_of_string_of_list_ascii. Qed.

Lemma starts_with_prefix (p l : list ascii) : starts_with p (p ++ l) = true.
Proof.
  induction p as [|a p IH]; [reflexivity|]. cbn [app starts_with].
  destruct (decide (a = a)); [exact IH|congruence].
Qed.

Lemma split_first_prefix (sep l : list ascii) :
  starts_with sep l = true ->
  split_first sep l = Some ([], drop (length sep) l).
Proof. intros H. destruct l; cbn [split_first]; rewrite H; reflexivity. Qed.

Lemma rsplit_last_suffix (sep l : list ascii) :
  rsplit_last sep (l ++ sep) = Some (l, []).
Proof.
  unfold rsplit_last. rewrite rev_app_distr.
  rewrite (split_first_prefix _ _ (starts_with_prefix (rev sep) (rev l))).
  rewrite drop_app_length. rewrite rev_involutive. reflexivity.
Qed.

Lemma strip_chars_tight (a z : ascii) (l : list ascii) :
  is_space a = false -> is_space z = false ->
  strip_chars (a :: l ++ [z]) = a :: l ++ [z].
Proof.
  intros Ha Hz. unfold strip_chars. cbn [lstrip]. rewrite Ha.
  change (a :: l ++ [z]) with ((a :: l) ++ [z]).
  rewrite rev_unit. cbn [lstrip]. rewrite Hz.
  change (z :: rev (a :: l)) with ([z] ++ rev (a :: l)).
  rewrite rev_app_distr, rev_involutive. reflexivity.
Qed.


(** X16. [allowed_file] looks at the text after the last dot only, without
    regard to case: a name [stem.ext] whose [ext] holds no dot is allowed
    exactly when [ext] in lower case is png, jpg, jpeg or webp, whatever
    the stem; and a name without a dot is refused. *)
Theorem allowed_file_checks_last_extension (stem ext : list ascii) :
  ("."%char ∉ ext ->
   allowed_file (str (stem ++ "."%char :: ext))
   = bool_decide (lower (str ext) ∈ ALLOWED_EXTENSIONS))
  ∧ ("."%char ∉ stem -> allowed_file (str stem) = false).
Proof.
  split.
  - intros Hext. unfold allowed_file, contains_char. rewrite chars_str.
    assert (Hs : rsplit_last ["."%char] (stem ++ "."%char :: ext)
                 = Some (stem, ext)).
    { apply rsplit_last_char. split; [reflexivity|exact Hext]. }
    rewrite Hs. rewrite bool_decide_eq_true_2; [reflexivity|].
    apply elem_of_app. right. left.
  - intros Hstem. unfold allowed_file, contains_char. rewrite chars_str.
    rewrite bool_decide_eq_false_2 by exact Hstem. reflexivity.
Qed.

(** ** Settings: what is saved is what is shown *)

Lemma reads_limits_functional (req : request) (v w : list pyfloat) :
  reads_limits req v -> reads_limits req w -> v = w.
Proof.
  unfold reads_limits. generalize limit_inputs. intros keys Hv. revert w.
  induction Hv as [|kd x keys v Hx _ IH]; intros w Hw.
  - inversion Hw. reflexivity.
  - inversion Hw as [|kd' y keys' w' Hy Hw']; subst.
    rewrite (coerced_functional _ _ _ _ Hx Hy), (IH _ Hw'). reflexivity.
Qed.

Lemma replace_limits_again (l upd : DailyLimit.t) (t : list DailyLimit.t) :
  DailyLimit.id upd = DailyLimit.id l ->
  map (fun x => if decide (DailyLimit.id x = DailyLimit.id upd) then upd else x)
      (map (fun x => if decide (DailyLimit.id x = DailyLimit.id l)
                     then upd else x) t)
  = map (fun x => if decide (DailyLimit.id x = DailyLimit.id l) then upd else x)
        t.
Proof.
  intros Hid. rewrite map_map. apply map_ext. intros x. rewrite Hid.
  destruct (decide (DailyLimit.id x = DailyLimit.id l)) as [Hx|Hx].
  - destruct (decide (DailyLimit.id upd = DailyLimit.id l)); reflexivity.
  - destruct (decide (DailyLimit.id x = DailyLimit.id l)); [contradiction|].
    reflexivity.
Qed.


Lemma filter_map_same {A : Type} (P : A -> Prop) `{!∀ x, Decision (P x)}
  (F : A -> A) (t : list A) :
  (∀ x, x ∈ t -> F x = x ∨ (¬ P x ∧ ¬ P (F x))) ->
  filter P (map F t) = filter P t.
Proof.
  induction t as [|x t IH]; intros HF; [reflexivity|].
  cbn [map]. rewrite !filter_cons.
  rewrite IH by (intros y Hy; apply HF; right; exact Hy).
  destruct (HF x) as [->|[Hx HFx]]; [left|reflexivity|].
  destruct (decide (P (F x))); [contradiction|].
  destruct (decide (P x)); [contradiction|]. reflexivity.
Qed.

Lemma get_limits_other_users (u : User.t) (s : state) :
  (NoDup (map DailyLimit.id (daily_limit_table s)) ->
   NoDup (map DailyLimit.id (daily_limit_table (snd (get_limits u s)))))
  ∧ ∀ uid, uid ≠ User.id u ->
           filter (fun l => DailyLimit.user_id l = uid)
                  (daily_limit_table (snd (get_limits u s)))
           = filter (fun l => DailyLimit.user_id l = uid) (daily_limit_table s).
Proof.
  destruct (limits_of (User.id u) s) as [l|] eqn:E.
  - rewrite (get_limits_hit _ _ _ E). cbn [snd]. auto.
  - rewrite (get_limits_miss _ _ E). cbn [snd with_limits daily_limit_table].
    split.
    + intros Hnd. apply NoDup_map_snoc; [exact Hnd|]. apply next_id_new.
    + intros uid Hne. rewrite filter_app, filter_cons.
      destruct (decide (DailyLimit.user_id
                          (DailyLimit.fresh
                             (next_id (map DailyLimit.id (daily_limit_table s)))
                             (User.id u)) = uid)) as [Heq|_].
      * cbn in Heq. congruence.
      * rewrite filter_nil. apply app_nil_r.
Qed.

(** X18. A settings request of a logged-in user, GET or POST, readable form
    or not, touches no account, meal, goal or stored upload, and (the keys
    of the limits rows being distinct) leaves the limits rows of every other
    user as they were. *)
Theorem settings_changes_own_limits_only
  (req : request) (s : state) (u : User.t) :
  current_user s req = Some u ->
  NoDup (map DailyLimit.id (daily_limit_table s)) ->
  user_table (snd (settings req s)) = user_table s
  ∧ meal_table (snd (settings req s)) = meal_table s
  ∧ goal_table (snd (settings req s)) = goal_table s
  ∧ uploads (snd (settings req s)) = uploads s
  ∧ ∀ uid, uid ≠ User.id u ->
           filter (fun l => DailyLimit.user_id l = uid)
                  (daily_limit_table (snd (settings req s)))
           = filter (fun l => DailyLimit.user_id l = uid) (daily_limit_table s).
Proof.
  intros Hu Hnd. unfold settings. rewrite (login_required_user _ _ _ _ Hu).
  destruct (get_limits_other_users u s) as [Hnd1 Hothers].
  specialize (Hnd1 Hnd).
  destruct (get_limits_total u s)
    as (l & s1 & Hl & Hfound & Hus & Hms & Hgs & Hup).
  rewrite Hl in Hnd1, Hothers. cbn [snd] in Hnd1, Hothers.
  destruct (method req) eqn:Hm.
  - unfold settings_view, bind. rewrite Hl, Hm. cbn [ret snd]. auto.
  - destruct (settings_post_run req s u Hm)
      as (l2 & s2 & Hl2 & _ & [(v & _ & ->)|(_ & ->)]);
      rewrite Hl in Hl2; injection Hl2 as <- <-; cbn [snd]; [|auto].
    cbn [with_limits user_table meal_table goal_table uploads
           daily_limit_table].
    repeat (split; [assumption|]).
    intros uid Hne. rewrite <- (Hothers uid Hne).
    apply filter_map_same. intros x Hx.
    destruct (decide (DailyLimit.id x = DailyLimit.id l)) as [Hid|_];
      [|left; reflexivity].
    right.
    assert (x = l)
      by (apply (pk_injective DailyLimit.id (daily_limit_table s1));
          [exact Hnd1|exact Hx|exact (limits_of_member _ _ _ Hfound)
          |exact Hid]).
    subst x. pose proof (limits_of_owner _ _ _ Hfound) as Hown.
    cbn [limits_from DailyLimit.user_id]. split; congruence.
Qed.

(** ** What a share link shows *)


(** ** The properties above on the small database *)




Lemma delete_undoes_add_meal_witness :
  current_user demo apple_request = Some anna
  ∧ meal_table (snd (add_meal same_name no_json demo_env apple_request demo))
    = meal_table demo ++ [stored_apple]
  ∧ ∃ s'', delete_meal 5 apple_request
             (snd (add_meal same_name no_json demo_env apple_request demo))
           = (Ok (Redirect "dashboard"), s'')
           ∧ meal_table s'' = meal_table demo.
Proof.
  split; [reflexivity|]. split; [reflexivity|].
  exact (delete_undoes_add_meal same_name no_json demo_env apple_request demo
           anna stored_apple eq_refl eq_refl).
Defined.


Lemma complete_goal_is_idempotent_witness :
  fst (complete_goal 1 (as_anna POST [] []) demo) = Ok (Redirect "goals")
  ∧ complete_goal 1 (as_anna POST [] [])
      (snd (complete_goal 1 (as_anna POST [] []) demo))
    = (Ok (Redirect "goals"),
       snd (complete_goal 1 (as_anna POST [] []) demo)).
Proof.
  split; [reflexivity|].
  exact (complete_goal_is_idempotent 1 (as_anna POST [] []) demo eq_refl).
Defined.

Lemma new_goal_is_open_until_completed_witness :
  current_user demo walk_request = Some anna
  ∧ fst (add_goal no_date demo_env walk_request demo) = Ok (Redirect "goals")
  ∧ ∃ g s2,
      goal_table (snd (add_goal no_date demo_env walk_request demo))
      = goal_table demo ++ [g]
      ∧ complete_goal (Goal.id g) walk_request
          (snd (add_goal no_date demo_env walk_request demo))
        = (Ok (Redirect "goals"), s2)
      ∧ open_goals 1 s2 = open_goals 1 demo.
Proof.
  split; [reflexivity|]. split; [reflexivity|].
  destruct (new_goal_is_open_until_completed no_date demo_env walk_request
              demo (snd (add_goal no_date demo_env walk_request demo)) anna
              eq_refl eq_refl)
    as (g & s2 & _ & Htable & Hrun & _ & Hopen).
  exists g, s2. split; [exact Htable|]. split; [exact Hrun|exact Hopen].
Defined.

Lemma login_after_register_witness :
  session_user_id carl_request = None
  ∧ fst (register demo_accounts demo_env carl_request demo)
    = Ok (Answered (Redirect "dashboard") (Some 3))
  ∧ login demo_accounts carl_request
      (snd (register demo_accounts demo_env carl_request demo))
    = (Ok (Answered (Redirect "dashboard") (Some 3)),
       snd (register demo_accounts demo_env carl_request demo)).
Proof.
  split; [reflexivity|]. split; [reflexivity|].
  exact (login_after_register demo_accounts demo_env carl_request demo
           (Redirect "dashboard") 3 eq_refl eq_refl eq_refl).
Defined.

Lemma demo_owners : owners_exist demo.
Proof.
  repeat split; intros r Hr;
    repeat (apply elem_of_cons in Hr as [->|Hr]);
    try (apply elem_of_nil in Hr; contradiction);
    first [exists anna; split; [left|reflexivity]
          |exists ben; split; [right; left|reflexivity]].
Defined.

Lemma fresh_account_shared_page_witness :
  session_user_id carl_request = None
  ∧ owners_exist demo
  ∧ fst (register demo_accounts demo_env carl_request demo)
    = Ok (Answered (Redirect "dashboard") (Some 3))
  ∧ ∃ user ctx s'',
      User.id user = 3
      ∧ shared_profile demo_env "tok-carl"
          (snd (register demo_accounts demo_env carl_request demo))
        = (Ok (RenderShared user ctx), s'')
      ∧ page_meals ctx = []
      ∧ page_goals ctx = []
      ∧ DailyLimit.ceilings (page_limits ctx) = baseline.
Proof.
  split; [reflexivity|]. split; [exact demo_owners|]. split; [reflexivity|].
  destruct (fresh_account_shared_page demo_accounts demo_env demo_env
              carl_request demo (Redirect "dashboard") 3 eq_refl demo_owners
              eq_refl)
    as (user & ctx & s'' & Hid & Hrun & Hmeals & Hgoals & _ & Hlimits).
  exists user, ctx, s''. repeat split; assumption.
Defined.

Lemma reachable_database_is_consistent_witness :
  let s := serve same_name no_json no_date
             (AddMeal demo_env (mkRequest POST [("name", "Apfel")] [] []
                                          (Some 1)))
             (serve same_name no_json no_date
                (Register demo_accounts demo_env carl_request)
                empty_database) in
  reachable same_name no_json no_date s
  ∧ map User.username (user_table s) = ["carl"]
  ∧ map Meal.user_id (meal_table s) = [1]
  ∧ keys_unique s ∧ accounts_unique s ∧ one_limits_row_per_user s
  ∧ owners_exist s.
Proof.
  assert (Hreach :
            reachable same_name no_json no_date
              (serve same_name no_json no_date
                 (AddMeal demo_env (mkRequest POST [("name", "Apfel")] [] []
                                              (Some 1)))
                 (serve same_name no_json no_date
                    (Register demo_accounts demo_env carl_request)
                    empty_database)))
    by (do 2 apply reachable_serve; apply reachable_empty).
  split; [exact Hreach|]. split; [reflexivity|]. split; [reflexivity|].
  exact (reachable_database_is_consistent same_name no_json no_date _ Hreach).
Defined.



Lemma demo_limit_keys : NoDup (map DailyLimit.id (daily_limit_table demo)).
Proof. apply (bool_decide_unpack _). vm_compute. exact I. Defined.

Lemma settings_changes_own_limits_only_witness :
  current_user demo (limits_request "28") = Some anna
  ∧ NoDup (map DailyLimit.id (daily_limit_table demo))
  ∧ meal_table (snd (settings (limits_request "28") demo)) = meal_table demo
  ∧ filter (fun l => DailyLimit.user_id l = 2)
           (daily_limit_table (snd (settings (limits_request "28") demo)))
    = filter (fun l => DailyLimit.user_id l = 2) (daily_limit_table demo).
Proof.
  split; [reflexivity|]. split; [exact demo_limit_keys|].
  destruct (settings_changes_own_limits_only (limits_request "28") demo anna
              eq_refl demo_limit_keys) as (_ & Hmeals & _ & _ & Hothers).
  split; [exact Hmeals|]. apply Hothers. discriminate.
Defined.

Lemma add_meal_writes_one_own_meal_witness :
  user_table (snd (add_meal same_name no_json demo_env apple_request demo))
  = user_table demo
  ∧ meals_filter_by 2 100
      (snd (add_meal same_name no_json demo_env apple_request demo))
    = meals_filter_by 2 100 demo.
Proof.
  destruct (add_meal_writes_one_own_meal same_name no_json demo_env
              apple_request demo) as (Husers & _ & _ & _ & Hothers).
  split; [exact Husers|]. apply Hothers.
  intros u Hu. injection Hu as <-. discriminate.
Defined.


Lemma allowed_file_checks_last_extension_witness :
  allowed_file "Lunch.Final.JPG" = true
  ∧ allowed_file "lunch.png.exe" = false
  ∧ allowed_file "png" = false.
Proof.
  assert (Hno : ∀ ext : list ascii,
             bool_decide ("."%char ∈ ext) = false -> "."%char ∉ ext)
    by (intros ext H; apply (bool_decide_eq_false_1 _ H)).
  split; [|split].
  - destruct (allowed_file_checks_last_extension (chars "Lunch.Final")
                (chars "JPG")) as [H _].
    exact (H (Hno (chars "JPG") eq_refl)).
  - destruct (allowed_file_checks_last_extension (chars "lunch.png")
                (chars "exe")) as [H _].
    exact (H (Hno (chars "exe") eq_refl)).
  - destruct (allowed_file_checks_last_extension (chars "png") [])
      as [_ H].
    exact (H (Hno (chars "png") eq_refl)).
Defined.
